(** * FlowForge: scripts/flatpak-node-generator.py

    A shallow embedding of the lockfile-to-source-list generator and the
    properties of its specification.

    The script reads a parsed package-lock.json document, walks either the
    flat [packages] map or the legacy nested [dependencies] tree, and emits
    one source dictionary per resolved package.  The embedding follows the
    script function by function:

    - Python values coming out of [json.load] are the type [json];
      dictionaries keep their insertion order (association lists);
    - [str] methods used by the script are functions on [string];
      characters are the code points below 256;
    - exceptions are values of [exn]; code that can raise returns [result];
    - the mutable [sources] list, the printed lines and the network are the
      three components of [state], threaded through the monad [M];
    - the network ([urllib.request.urlopen]), [hashlib.sha512],
      [urllib.parse.urlparse] and what standard output does with a
      warning are the fields of the class [Env], over which every
      definition and theorem is generic;
    - [base64.b64decode] and [bytes.hex] are modelled concretely, after
      CPython's [binascii.a2b_base64] in its default (non strict) mode. *)

From Stdlib Require Import ZArith List String Ascii Bool Lia.
Import ListNotations.

Local Open Scope string_scope.
Local Open Scope Z_scope.

(** ** Python values *)

(** Values produced by [json.load].  A float is kept as the dyadic number
    [m * 2^e]; the script only ever tests a float for truth. *)
#[warnings="-register-all"]
Inductive json : Type :=
| JNull
| JBool (b : bool)
| JInt (z : Z)
| JFloat (m e : Z)
| JStr (s : string)
| JList (l : list json)
| JDict (items : list (string * json)).

(** A Python [dict] with string keys, in insertion order. *)
Definition dict := list (string * json).

(** Exceptions the script can let escape. *)
Inductive exn : Type :=
| AttributeError
| TypeError
| KeyError
| ValueError
| BinasciiError
| UnicodeEncodeError
| OSError.

Inductive result (A : Type) : Type :=
| Ok (a : A)
| Raise (e : exn).
Arguments Ok {A} a.
Arguments Raise {A} e.

(** [bool(v)] *)
Definition truthy (v : json) : bool :=
  match v with
  | JNull => false
  | JBool b => b
  | JInt z => negb (z =? 0)
  | JFloat m _ => negb (m =? 0)
  | JStr s => negb (String.eqb s "")
  | JList l => match l with [] => false | _ :: _ => true end
  | JDict d => match d with [] => false | _ :: _ => true end
  end.

(** ** Dictionaries *)

Section DictLookup.
Context {B : Type} (f : json -> B).

(** [f d[k]] when [k in d]: lookup with the continuation applied at the
    value found, so that a recursive traversal can descend into it. *)
Definition dict_get_with (k : string) : dict -> option B :=
  fix go (d : dict) : option B :=
    match d with
    | [] => None
    | (k', v) :: d' => if String.eqb k k' then Some (f v) else go d'
    end.
End DictLookup.

(** [d.get(k)] *)
Definition dict_get (k : string) (d : dict) : option json :=
  dict_get_with (fun v => v) k d.

(** [k in d] *)
Definition dict_mem (k : string) (d : dict) : bool :=
  match dict_get k d with Some _ => true | None => false end.

(** [d[k] = v]: replaces the value of an existing key in place, appends a
    new key at the end. *)
Fixpoint dict_set (k : string) (v : json) (d : dict) : dict :=
  match d with
  | [] => [(k, v)]
  | (k', v') :: d' =>
      if String.eqb k k' then (k', v) :: d' else (k', v') :: dict_set k v d'
  end.

(** [list(d.keys())] *)
Definition dict_keys (d : dict) : list string := map fst d.

(** ** [str] methods *)

(** [s[n:]] *)
Fixpoint str_drop (n : nat) (s : string) : string :=
  match n, s with
  | O, _ => s
  | S _, EmptyString => EmptyString
  | S n', String _ r => str_drop n' r
  end.

(** [s.startswith(p)] *)
Definition startswith (s p : string) : bool := String.prefix p s.

(** [s.replace(c, '')] for a one-character [c] *)
Fixpoint str_remove (c : ascii) (s : string) : string :=
  match s with
  | EmptyString => EmptyString
  | String a r =>
      if Ascii.eqb a c then str_remove c r else String a (str_remove c r)
  end.

(** [s.replace(c, c')] for one-character [c] and [c'] *)
Fixpoint str_replace (c c' : ascii) (s : string) : string :=
  match s with
  | EmptyString => EmptyString
  | String a r =>
      String (if Ascii.eqb a c then c' else a) (str_replace c c' r)
  end.

Fixpoint str_repeat (c : ascii) (n : nat) : string :=
  match n with
  | O => EmptyString
  | S n' => String c (str_repeat c n')
  end.

(** [s.ljust(width, fill)] *)
Definition ljust (s : string) (width : nat) (fill : ascii) : string :=
  s ++ str_repeat fill (width - String.length s)%nat.

(** [s.split(sep)] for a one-character [sep]; the list is never empty. *)
Fixpoint str_split (sep : ascii) (s : string) : list string :=
  match s with
  | EmptyString => [EmptyString]
  | String a r =>
      if Ascii.eqb a sep then EmptyString :: str_split sep r
      else match str_split sep r with
           | h :: t => String a h :: t
           | [] => [String a EmptyString]
           end
  end.

(** [s.split('/')[-1]] *)
Definition last_segment (s : string) : string :=
  last (str_split "/" s) EmptyString.

(** [p in s] for strings: [p] occurs in [s] as a substring. *)
Fixpoint str_contains (p s : string) : bool :=
  String.prefix p s ||
  match s with
  | EmptyString => false
  | String _ r => str_contains p r
  end.

(** ** [bytes.hex] *)

Definition bytes := list Z.

Definition hexdigit (d : Z) : ascii :=
  match d with
  | 0 => "0" | 1 => "1" | 2 => "2" | 3 => "3"
  | 4 => "4" | 5 => "5" | 6 => "6" | 7 => "7"
  | 8 => "8" | 9 => "9" | 10 => "a" | 11 => "b"
  | 12 => "c" | 13 => "d" | 14 => "e" | _ => "f"
  end%char.

(** Two lowercase digits per byte, high nibble first. *)
Fixpoint hex (bs : bytes) : string :=
  match bs with
  | [] => EmptyString
  | b :: r =>
      String (hexdigit (Z.land (Z.shiftr b 4) 15))
        (String (hexdigit (Z.land b 15)) (hex r))
  end.

(** ** [base64.b64decode] *)

Definition code (c : ascii) : Z := Z.of_N (N_of_ascii c).

(** [table_a2b_base64]: the six-bit value of an alphabet character. *)
Definition table_a2b_base64 (c : ascii) : option Z :=
  let n := code c in
  if (65 <=? n) && (n <=? 90) then Some (n - 65)
  else if (97 <=? n) && (n <=? 122) then Some (n - 71)
  else if (48 <=? n) && (n <=? 57) then Some (n + 4)
  else if n =? 43 then Some 62
  else if n =? 47 then Some 63
  else None.

Definition BASE64_PAD : ascii := "="%char.

(** The decoding loop of [binascii.a2b_base64] with [strict_mode] off.
    [quad_pos] counts the alphabet characters of the current group of four,
    [leftchar] holds the bits not yet written, [pads] counts the pad
    characters seen since the last alphabet character, [out] is the output
    buffer.  Characters outside the alphabet are skipped; a pad sequence
    that completes the group ends the decoding. *)
Fixpoint a2b_loop (s : string) (quad_pos leftchar pads : Z) (out : bytes)
  : result bytes :=
  match s with
  | EmptyString =>
      if quad_pos =? 0 then Ok out else Raise BinasciiError
  | String c rest =>
      if Ascii.eqb c BASE64_PAD then
        if 2 <=? quad_pos then
          if 4 <=? quad_pos + (pads + 1) then Ok out
          else a2b_loop rest quad_pos leftchar (pads + 1) out
        else a2b_loop rest quad_pos leftchar pads out
      else
        match table_a2b_base64 c with
        | None => a2b_loop rest quad_pos leftchar pads out
        | Some this_ch =>
            if quad_pos =? 0 then
              a2b_loop rest 1 this_ch 0 out
            else if quad_pos =? 1 then
              a2b_loop rest 2 (Z.land this_ch 15) 0
                (out ++ [Z.lor (Z.shiftl leftchar 2) (Z.shiftr this_ch 4)
                           mod 256])%list
            else if quad_pos =? 2 then
              a2b_loop rest 3 (Z.land this_ch 3) 0
                (out ++ [Z.lor (Z.shiftl leftchar 4) (Z.shiftr this_ch 2)
                           mod 256])%list
            else
              a2b_loop rest 0 0 0
                (out ++ [Z.lor (Z.shiftl leftchar 6) this_ch mod 256])%list
        end
  end.

Definition a2b_base64 (s : string) : result bytes := a2b_loop s 0 0 0 [].

(** [s.encode('ascii')] succeeds when every code point is below 128 *)
Fixpoint is_ascii (s : string) : bool :=
  match s with
  | EmptyString => true
  | String c r => (code c <? 128) && is_ascii r
  end.

(** [base64.b64decode(s)] on a [str] argument, default arguments. *)
Definition b64decode (s : string) : result bytes :=
  if is_ascii s then a2b_base64 s else Raise ValueError.

(** ** Membership and subscription on arbitrary values *)

(** [k in data] for a string [k] *)
Definition py_in (k : string) (data : json) : result bool :=
  match data with
  | JDict d => Ok (dict_mem k d)
  | JList l =>
      Ok (existsb (fun v => match v with
                            | JStr s => String.eqb s k
                            | _ => false
                            end) l)
  | JStr s => Ok (str_contains k s)
  | _ => Raise TypeError
  end.

(** [data[k]] for a string [k] *)
Definition py_getitem (data : json) (k : string) : result json :=
  match data with
  | JDict d =>
      match dict_get k d with
      | Some v => Ok v
      | None => Raise KeyError
      end
  | _ => Raise TypeError
  end.

(** The entries of a dependency tree: those of the top-level mapping and,
    recursively, those of the [dependencies] mapping of a dictionary
    entry. *)
Inductive dep_entry : json -> string -> json -> Prop :=
| dep_here items name info :
    In (name, info) items ->
    dep_entry (JDict items) name info
| dep_below items parent fields nested name info :
    In (parent, JDict fields) items ->
    dict_get "dependencies" fields = Some nested ->
    dep_entry nested name info ->
    dep_entry (JDict items) name info.


Fixpoint str_forallb (p : ascii -> bool) (s : string) : bool :=
  match s with
  | EmptyString => true
  | String c r => p c && str_forallb p r
  end.

(** ** The generator *)

(** What the script prints. *)
Inductive line : Type :=
| Warning (url : json) (e : string)   (* Warning: Could not download {url}: {e} *)
| Processing                          (* Processing {lockfile}... *)
| Generated (n : nat).                (* Generated {n} sources in {output} *)

(** What [urlopen(url)] followed by [response.read()] gives. *)
Inductive fetched : Type :=
| Body (data : bytes)
| Failed (e : string).

(** The network and the two library functions left abstract: what the
    script is run against. *)
Class Env : Type := {
  (** the state of the network *)
  World : Type;
  (** [urllib.request.urlopen(url)] and [response.read()] *)
  urlopen_read : json -> World -> fetched * World;
  (** [hashlib.sha512(data).hexdigest()] *)
  sha512_hexdigest : bytes -> string;
  (** [urllib.parse.urlparse(url).path] *)
  urlparse_path : json -> result string;
  (** the [print] of line 21, in the [except] block: what writing the
      warning for this URL and this exception to standard output gives
      (an exception when the stream cannot take the text) *)
  print_warning : json -> string -> result unit
}.

Section Generator.

Context {env : Env}.

Record state : Type := mkState {
  world : World;
  stdout : list line;
  sources : list dict
}.

(** Computations that read and write the state and may raise. *)
Definition M (A : Type) : Type := state -> result A * state.

Definition ret {A} (a : A) : M A := fun s => (Ok a, s).

Definition raise {A} (e : exn) : M A := fun s => (Raise e, s).

Definition bind {A B} (m : M A) (k : A -> M B) : M B :=
  fun s =>
    match m s with
    | (Ok a, s') => k a s'
    | (Raise e, s') => (Raise e, s')
    end.

Definition lift {A} (r : result A) : M A := fun s => (r, s).

Notation "x <- m ;; k" := (bind m (fun x => k))
  (at level 61, m at next level, right associativity).
Notation "m ;; k" := (bind m (fun _ => k))
  (at level 61, right associativity).

(** [print(...)] *)
Definition print (l : line) : M unit :=
  fun s => (Ok tt, mkState (world s) (stdout s ++ [l]) (sources s)).

(** [sources.append(source)] *)
Definition append_source (source : dict) : M unit :=
  fun s => (Ok tt, mkState (world s) (stdout s) (sources s ++ [source])).

(** [for x in l: body(x)]; [continue] is the body returning early. *)
Definition for_each {A} (body : A -> M unit) : list A -> M unit :=
  fix loop (l : list A) : M unit :=
    match l with
    | [] => ret tt
    | x :: r => body x ;; loop r
    end.

(** [get_sha512]: the digest of the body, or a warning and [None].  The
    warning is printed in the [except] block, where nothing catches what
    the [print] itself raises. *)
Definition get_sha512 (url : json) : M (option string) :=
  fun s =>
    match urlopen_read url (world s) with
    | (Body data, w) =>
        (Ok (Some (sha512_hexdigest data)),
         mkState w (stdout s) (sources s))
    | (Failed e, w) =>
        match print_warning url e with
        | Ok _ =>
            (Ok None,
             mkState w (stdout s ++ [Warning url e]) (sources s))
        | Raise x => (Raise x, mkState w (stdout s) (sources s))
        end
    end.

(** [not sha512_hex] *)
Definition falsy_hash (h : option string) : bool :=
  match h with
  | None => true
  | Some h => String.eqb h ""
  end.

(** [info.get('integrity', '').startswith('sha512-')]; the method exists
    on strings only. *)
Definition integrity_of (info : dict) : result string :=
  match dict_get "integrity" info with
  | None => Ok ""
  | Some (JStr s) => Ok s
  | Some _ => Raise AttributeError
  end.

(** Lines 42-43: the characters handed to the decoder. *)
Definition prepare_b64 (integrity : string) : string :=
  let sha512 :=
    str_remove "=" (str_replace "+" "-" (str_remove "/" (str_drop 7 integrity))) in
  ljust sha512 ((String.length sha512 + 3) / 4 * 4)%nat "=".

(** Lines 60-63 *)
Definition dest_name (name : string) (url : json) : result string :=
  if startswith name "node_modules/" then Ok (str_drop 13 name)
  else match urlparse_path url with
       | Ok path => Ok (last_segment path)
       | Raise e => Raise e
       end.

(** The body of the loop over [data['packages'].items()]. *)
Definition package_body (name : string) (info : json) : M unit :=
  if String.eqb name "" then ret tt
  else
    match info with
    | JDict info =>
        match dict_get "resolved" info with
        | None => ret tt
        | Some url =>
            if negb (truthy url) then ret tt
            else
              integrity <- lift (integrity_of info) ;;
              sha512_hex <-
                (if startswith integrity "sha512-" then
                   b <- lift (b64decode (prepare_b64 integrity)) ;;
                   ret (Some (hex b))
                 else
                   h <- get_sha512 url ;;
                   ret (if falsy_hash h then None else h)) ;;
              match sha512_hex with
              | None => ret tt
              | Some sha512_hex =>
                  let source :=
                    [("type", JStr "file"); ("url", url);
                     ("sha512", JStr sha512_hex)] in
                  d <- lift (dest_name name url) ;;
                  append_source
                    (dict_set "dest-filename" (JStr ("npm-cache/" ++ d))
                       source)
              end
        end
    | _ => raise AttributeError
    end.

(** [url.split('/')[-1]]; the method exists on strings only. *)
Definition url_basename (url : json) : result string :=
  match url with
  | JStr u => Ok (last_segment u)
  | _ => Raise AttributeError
  end.

(** The body of the loop of [process_deps]; [recurse] is [process_deps]
    itself. *)
Definition deps_body (recurse : json -> string -> M unit)
    (prefix name : string) (info : json) : M unit :=
  match info with
  | JDict info =>
      match dict_get "resolved" info with
      | None => ret tt
      | Some url =>
          integrity <- lift (integrity_of info) ;;
          sha512_hex <-
            (if startswith integrity "sha512-" then
               ret (Some (str_drop 7 integrity))
             else
               h <- get_sha512 url ;;
               ret (if falsy_hash h then None else h)) ;;
          match sha512_hex with
          | None => ret tt
          | Some sha512_hex =>
              b <- lift (url_basename url) ;;
              append_source
                [("type", JStr "file"); ("url", url);
                 ("sha512", JStr sha512_hex);
                 ("dest-filename", JStr ("npm-cache/" ++ b))] ;;
              match dict_get_with
                      (fun d => recurse d (prefix ++ name ++ "/"))
                      "dependencies" info with
              | Some nested => nested
              | None => ret tt
              end
          end
      end
  | _ => ret tt
  end.

(** [process_deps(deps, prefix)]: [deps.items()] exists on dictionaries
    only. *)
Fixpoint process_deps (deps : json) (prefix : string) {struct deps}
  : M unit :=
  match deps with
  | JDict items =>
      for_each (fun p => deps_body process_deps prefix (fst p) (snd p))
        items
  | _ => raise AttributeError
  end.

(** [v.items()] *)
Definition py_items (v : json) : result dict :=
  match v with
  | JDict d => Ok d
  | _ => Raise AttributeError
  end.

(** The loop over [data['packages'].items()]. *)
Definition process_packages (items : dict) : M unit :=
  for_each (fun p => package_body (fst p) (snd p)) items.

(** [process_package_lock], from the parsed document on: [sources]
    starts empty and is returned at the end. *)
Definition process_package_lock (data : json) : M (list dict) :=
  (fun s => (Ok tt, mkState (world s) (stdout s) [])) ;;
  has_packages <- lift (py_in "packages" data) ;;
  (if has_packages : bool then
     packages <- lift (py_getitem data "packages") ;;
     items <- lift (py_items packages) ;;
     process_packages items
   else
     has_dependencies <- lift (py_in "dependencies" data) ;;
     if has_dependencies : bool then
       deps <- lift (py_getitem data "dependencies") ;;
       process_deps deps ""
     else ret tt) ;;
  fun s => (Ok (sources s), s).

(** What a run leaves behind: the exit status, the list written to the
    output file if it was written, and the printed lines. *)
Record outcome : Type := mkOutcome {
  exit_code : Z;
  output_file : option (list dict);
  printed : list line
}.

(** [main] from line 113 on, with the arguments parsed, on the document
    that [json.load] returned; the two lines that [main] prints hold the
    paths of the command line and are taken to be printable, the output
    file to be writable.  An exception that escapes ends the process with
    status 1 before the output file is opened. *)
Definition main (data : json) (w : World) : outcome :=
  match (print Processing ;;
         sources <- process_package_lock data ;;
         print (Generated (List.length sources)) ;;
         ret sources) (mkState w [] []) with
  | (Ok sources, s) => mkOutcome 0 (Some sources) (stdout s)
  | (Raise _, s) => mkOutcome 1 None (stdout s)
  end.

(** What follows the [append] in an iteration: the descent into
    [info['dependencies']], when the key is there. *)
Definition descend (recurse : json -> string -> M unit)
    (prefix name : string) (fields : dict) : M unit :=
  match dict_get "dependencies" fields with
  | Some nested => recurse nested (prefix ++ name ++ "/")
  | None => ret tt
  end.

(** *** Where an emitted record comes from *)

(** The dictionary both traversals append. *)
Definition source_record (url : json) (sha512_hex dest : string) : dict :=
  [("type", JStr "file"); ("url", url); ("sha512", JStr sha512_hex);
   ("dest-filename", JStr ("npm-cache/" ++ dest))].

(** The hash is the hexadecimal form of what the decoder returned for the
    entry's [sha512-] integrity string (flat form). *)
Definition decoded_hash (info : dict) (h : string) : Prop :=
  exists integrity b,
    integrity_of info = Ok integrity /\
    startswith integrity "sha512-" = true /\
    b64decode (prepare_b64 integrity) = Ok b /\
    h = hex b.

(** The hash is the entry's [sha512-] integrity string without its tag
    (tree form). *)
Definition raw_hash (info : dict) (h : string) : Prop :=
  exists integrity,
    integrity_of info = Ok integrity /\
    startswith integrity "sha512-" = true /\
    h = str_drop 7 integrity.

(** The hash is the digest of a body fetched from [url], for an entry
    whose integrity string does not start with [sha512-]. *)
Definition fetched_hash (info : dict) (url : json) (h : string) : Prop :=
  exists integrity w w' data,
    integrity_of info = Ok integrity /\
    startswith integrity "sha512-" = false /\
    urlopen_read url w = (Body data, w') /\
    h = sha512_hexdigest data /\
    h <> "".

(** Record [r] is what the flat traversal emits for the entry
    [name -> info]. *)
Definition package_emits (name : string) (info : json) (r : dict) : Prop :=
  name <> "" /\
  exists fields url h d,
    info = JDict fields /\
    dict_get "resolved" fields = Some url /\
    truthy url = true /\
    (decoded_hash fields h \/ fetched_hash fields url h) /\
    dest_name name url = Ok d /\
    r = source_record url h d.

(** Record [r] is what the tree traversal emits for the entry [info]. *)
Definition dep_emits (info : json) (r : dict) : Prop :=
  exists fields u h,
    info = JDict fields /\
    dict_get "resolved" fields = Some (JStr u) /\
    (raw_hash fields h \/ fetched_hash fields (JStr u) h) /\
    r = source_record (JStr u) h (last_segment u).


(** Record [r] comes from an entry of the dependency tree. *)
Definition from_dependencies (deps : json) (r : dict) : Prop :=
  exists name info, dep_entry deps name info /\ dep_emits info r.

(** *** Shapes of entries *)

(** Line 34, negated: the entries of the flat form that the loop goes on
    with, a key and a resolved value that is true. *)
Definition resolvable (p : string * json) : bool :=
  negb (String.eqb (fst p) "") &&
  match snd p with
  | JDict info =>
      match dict_get "resolved" info with
      | Some url => truthy url
      | None => false
      end
  | _ => false
  end.

Definition is_ok {A} (r : result A) : bool :=
  match r with Ok _ => true | Raise _ => false end.

(** A flat-form entry that no line of the loop body can raise on: the
    root, or a mapping that is left out, or one whose integrity value is
    absent or a string, which decodes when it carries the tag, and whose
    filename can be formed.  With [fetch] off, the integrity string has to
    carry the tag: the entry needs no request. *)
Definition guarded_entry (fetch : bool) (p : string * json) : bool :=
  String.eqb (fst p) "" ||
  match snd p with
  | JDict info =>
      match dict_get "resolved" info with
      | None => true
      | Some url =>
          negb (truthy url) ||
          match integrity_of info with
          | Ok integrity =>
              (if startswith integrity "sha512-"
               then is_ok (b64decode (prepare_b64 integrity))
               else fetch) &&
              is_ok (dest_name (fst p) url)
          | Raise _ => false
          end
      end
  | _ => false
  end.

(** A dependency tree that no line of [process_deps] can raise on: a
    mapping whose entries, when they are mappings with a [resolved] key,
    have a string under it, an integrity value that is absent or a string,
    and under [dependencies], if anything, a tree of the same kind. *)
Fixpoint guarded_tree (deps : json) : bool :=
  match deps with
  | JDict items =>
      forallb
        (fun p =>
           match snd p with
           | JDict info =>
               match dict_get "resolved" info with
               | None => true
               | Some url =>
                   match url with JStr _ => true | _ => false end &&
                   is_ok (integrity_of info) &&
                   match dict_get_with guarded_tree "dependencies" info with
                   | Some b => b
                   | None => true
                   end
               end
           | _ => true
           end) items
  | _ => false
  end.

(** A dependency tree that needs no request: as [guarded_tree], with an
    integrity string that carries the tag wherever there is a [resolved]
    key. *)
Fixpoint offline_tree (deps : json) : bool :=
  match deps with
  | JDict items =>
      forallb
        (fun p =>
           match snd p with
           | JDict info =>
               match dict_get "resolved" info with
               | None => true
               | Some url =>
                   match url with JStr _ => true | _ => false end &&
                   match integrity_of info with
                   | Ok integrity => startswith integrity "sha512-"
                   | Raise _ => false
                   end &&
                   match dict_get_with offline_tree "dependencies" info with
                   | Some b => b
                   | None => true
                   end
               end
           | _ => true
           end) items
  | _ => false
  end.

Definition is_warning (l : line) : bool :=
  match l with Warning _ _ => true | _ => false end.

(** No "/" and no "+" in the string. *)
Definition plain_b64 (s : string) : bool :=
  str_forallb (fun c => negb (Ascii.eqb c "/") && negb (Ascii.eqb c "+")) s.

(** No "=" in the string. *)
Definition unpadded (s : string) : bool :=
  str_forallb (fun c => negb (Ascii.eqb c "=")) s.

End Generator.


(** ** A closed environment for the examples

    A registry that serves one tarball, with the digests and URL paths the
    Python library computes for the values that occur in the examples. *)
Module Fixture.

Definition sha512_foo : string :=
  "f7fbba6e0636f890e56fbbf3283e524c6fa3204ae298382d624741d0dc6638326e282c41be5e4254d8820772c5518a2c5a8c0c7f7eda19594a7eb539453e1ed7".

Definition sha512_empty : string :=
  "cf83e1357eefb8bdf1542850d66d8007d620e4050b5715dc83f4a921d36ce9ce47d0d13c5d85f2b0ff8318d2877eec2f63b931bd47417a81a538327af927da3e".

(** The world is the number of requests made so far. *)
#[export] Instance env : Env := {
  World := nat;
  urlopen_read url w :=
    match url with
    | JStr "https://x/foo-1.0.tgz" => (Body [102; 111; 111], S w)
    | _ => (Failed "HTTP Error 404: Not Found", S w)
    end;
  sha512_hexdigest data :=
    match data with
    | [102; 111; 111] => sha512_foo
    | _ => sha512_empty
    end;
  urlparse_path url :=
    match url with
    | JStr "https://x/foo-1.0.tgz" => Ok "/foo-1.0.tgz"
    | JStr "https://x/a.tgz?v=1/2" => Ok "/a.tgz"
    | JStr _ => Raise ValueError
    | _ => Raise AttributeError
    end;
  print_warning _ _ := Ok tt
}.

(** The same registry with a standard output that encodes to ASCII: a
    warning for a URL or an exception text with another character raises
    [UnicodeEncodeError]. *)
Definition ascii_stdout : Env := {|
  World := nat;
  urlopen_read := @urlopen_read env;
  sha512_hexdigest := @sha512_hexdigest env;
  urlparse_path := @urlparse_path env;
  print_warning url e :=
    match url with
    | JStr u =>
        if is_ascii u && is_ascii e then Ok tt else Raise UnicodeEncodeError
    | _ => Ok tt
    end
|}.

(** A run from a fresh world. *)
Definition run_main (data : json) : outcome := main data O.

Definition run_lock (data : json) : result (list dict) :=
  fst (process_package_lock data (mkState O [] [])).

End Fixture.

(** ** Example lockfiles *)
Module Examples.

(** An entry with a resolved URL and an integrity string. *)
Definition entry (url integrity : string) : json :=
  JDict [("resolved", JStr url); ("integrity", JStr integrity)].

(** A lockfile of the flat form, with its root entry. *)
Definition flat_lock (items : dict) : json :=
  JDict [("lockfileVersion", JInt 3);
         ("packages", JDict (("", JDict [("name", JStr "app")]) :: items))].

(** A lockfile of the legacy tree form. *)
Definition tree_lock (items : dict) : json :=
  JDict [("lockfileVersion", JInt 1); ("dependencies", JDict items)].

(** The integrity string of the empty file: the base64 form of the SHA-512
    digest [Fixture.sha512_empty]. *)
Definition integrity_empty : string :=
  "sha512-z4PhNX7vuL3xVChQ1m2AB9Yg5AULVxXcg/SpIdNs6c5H0NE8XYXysP+DGNKHfuwvY7kxvUdBeoGlODJ6+SfaPg==".

(** What the script emits for it. *)
Definition mangled_empty : string :=
  "cf83e1357eefb8bdf1542850d66d8007d620e4050b5715dc812a4874db3a7391f4344f17617cac3c318d2877eec2f63b931bd47417a81a538327a49f68f8".

(** The integrity string of a digest of 64 zero bytes, and its
    hexadecimal form. *)
Definition integrity_zero : string :=
  "sha512-AAAAAAAAAAAAAAAAAAAAAAAAAAAAAAAAAAAAAAAAAAAAAAAAAAAAAAAAAAAAAAAAAAAAAAAAAAAAAAAAAAAAAA==".

Definition hex_zero : string :=
  "00000000000000000000000000000000000000000000000000000000000000000000000000000000000000000000000000000000000000000000000000000000".

Definition foo_url : string := "https://x/foo-1.0.tgz".

(** Scenario 1 of the specification, with the digest of the empty file. *)
Definition lock_empty_digest : json :=
  flat_lock [("node_modules/foo", entry foo_url integrity_empty)].



(** The same entry in the two forms. *)
Definition lock_zero_flat : json :=
  flat_lock [("node_modules/foo", entry foo_url integrity_zero)].

Definition lock_zero_tree : json :=
  tree_lock [("foo", entry foo_url integrity_zero)].

(** A parent without a resolved URL, with one resolved dependency. *)
Definition nested_b : json :=
  JDict [("b", entry "https://x/b-1.0.tgz" "sha512-QUJD")].

Definition lock_parent_unresolved : json :=
  tree_lock [("a", JDict [("version", JStr "1.0.0");
                          ("dependencies", nested_b)])].

(** A parent with a resolved URL and a dependency, among siblings one of
    which is not a mapping. *)
Definition parent_a : dict :=
  [("resolved", JStr "https://x/a-1.0.tgz");
   ("integrity", JStr "sha512-QUJD");
   ("dependencies", nested_b)].

Definition siblings : dict :=
  [("c", JInt 3); ("d", entry "https://x/d-1.0.tgz" "sha512-QUJD")].



(** A URL with a query, in the two forms. *)
Definition query_url : string := "https://x/a.tgz?v=1/2".

Definition lock_query_tree : json :=
  tree_lock [("a", entry query_url "sha512-QUJD")].

Definition lock_query_flat : json :=
  flat_lock [("a", entry query_url "sha512-QUJD")].

(** Entries without an integrity string: one the registry serves, one it
    does not. *)
Definition unverified (url : string) : dict := [("resolved", JStr url)].

Definition lock_fetch : json :=
  flat_lock [("node_modules/gone", JDict (unverified "https://x/gone-1.0.tgz"));
             ("node_modules/foo", JDict (unverified foo_url))].

(** The state a traversal starts from. *)
Definition start : state := mkState (O : @World Fixture.env) [] [].

(** The fields of [flat_lock items] and of [tree_lock items]. *)
Definition flat_fields (items : dict) : dict :=
  [("lockfileVersion", JInt 3);
   ("packages", JDict (("", JDict [("name", JStr "app")]) :: items))].

Definition tree_fields (items : dict) : dict :=
  [("lockfileVersion", JInt 1); ("dependencies", JDict items)].

(** The entries of [lock_fetch] and of [lock_zero_flat]. *)
Definition fetch_items : dict :=
  [("node_modules/gone", JDict (unverified "https://x/gone-1.0.tgz"));
   ("node_modules/foo", JDict (unverified foo_url))].

Definition zero_items : dict :=
  [("node_modules/foo", entry foo_url integrity_zero)].

(** The base64 text of [integrity_zero] without its padding, and the
    bytes it stands for. *)
Definition zero_b64 : string :=
  "AAAAAAAAAAAAAAAAAAAAAAAAAAAAAAAAAAAAAAAAAAAAAAAAAAAAAAAAAAAAAAAAAAAAAAAAAAAAAAAAAAAAAA".

Definition zero_digest : bytes := List.repeat 0 64.

(** A parent whose digest has to be fetched from a URL the registry does
    not serve, with one resolved dependency, and a sibling. *)
Definition failed_parent : dict :=
  [("resolved", JStr "https://x/gone-1.0.tgz"); ("dependencies", nested_b)].

Definition lock_failed_parent : json :=
  tree_lock [("a", JDict failed_parent);
             ("d", entry "https://x/d-1.0.tgz" "sha512-QUJD")].

(** A URL with the character of code point 233, in an entry without an
    integrity string, before a valid entry. *)
Definition cafe_url : string :=
  "https://x/caf" ++ String (Ascii.ascii_of_nat 233) ".tgz".

Definition lock_unprintable : json :=
  flat_lock [("node_modules/cafe", JDict (unverified cafe_url));
             ("node_modules/foo", entry foo_url "sha512-QUJD")].

(** An entry whose resolved URL is the empty string, in the two forms. *)
Definition lock_void_url_tree : json :=
  tree_lock [("e", entry "" "sha512-QUJD")].

Definition lock_void_url_flat : json :=
  flat_lock [("node_modules/e", entry "" "sha512-QUJD")].

(** The entries of [lock_query_flat]. *)
Definition query_items : dict := [("a", entry query_url "sha512-QUJD")].

(** A tree with a nested level, an entry that is not a mapping and an
    entry without an integrity string. *)
Definition mixed_tree : json :=
  JDict [("a", JDict parent_a); ("c", JInt 3);
         ("gone", JDict (unverified "https://x/gone-1.0.tgz"))].

End Examples.

(** * Properties *)

(** ** Induction on documents *)

(** The induction principle of [json] that reaches inside lists and
    dictionaries. *)
Lemma json_nested_ind (P : json -> Prop) :
  P JNull ->
  (forall b, P (JBool b)) ->
  (forall z, P (JInt z)) ->
  (forall m e, P (JFloat m e)) ->
  (forall s, P (JStr s)) ->
  (forall l, Forall P l -> P (JList l)) ->
  (forall items, Forall (fun kv => P (snd kv)) items -> P (JDict items)) ->
  forall j, P j.
Proof.
  intros HN HB HI HF HS HL HD.
  fix IH 1.
  intros [ | b | z | m e | s | l | items ].
  - exact HN.
  - apply HB.
  - apply HI.
  - apply HF.
  - apply HS.
  - apply HL. induction l as [ | j l IHl ]; constructor; [ apply IH | exact IHl ].
  - apply HD.
    induction items as [ | [k v] items IHi ]; constructor;
      [ apply IH | exact IHi ].
Qed.

Lemma dict_get_with_map {B} (f : json -> B) k d :
  dict_get_with f k d = option_map f (dict_get k d).
Proof.
  unfold dict_get.
  induction d as [ | [k' v] d IHd ]; simpl; [ reflexivity | ].
  destruct (String.eqb k k'); [ reflexivity | exact IHd ].
Qed.

Lemma dict_get_In k d v : dict_get k d = Some v -> In (k, v) d.
Proof.
  unfold dict_get.
  induction d as [ | [k' v'] d IHd ]; simpl; [ discriminate | ].
  destruct (String.eqb k k') eqn:E.
  - apply String.eqb_eq in E. intros [= ->]. subst. now left.
  - intros H. right. now apply IHd.
Qed.

(** [nested] is the [dependencies] value of a dictionary entry of [deps]:
    the documents [process_deps] can descend into. *)
Definition nested_in (deps nested : json) : Prop :=
  exists items name fields,
    deps = JDict items /\ In (name, JDict fields) items /\
    dict_get "dependencies" fields = Some nested.

(** Induction along the descent of [process_deps]. *)
Lemma nested_ind (P : json -> Prop) :
  (forall deps, (forall nested, nested_in deps nested -> P nested) -> P deps) ->
  forall deps, P deps.
Proof.
  intros step.
  assert (both : forall j,
             P j /\ forall items, j = JDict items ->
                                  Forall (fun kv => P (snd kv)) items).
  { induction j as [ | b | z | m e | s | l _ | items IHitems ]
      using json_nested_ind.
    1-6: split; [ apply step; intros n (i & ? & ? & Heq & _)
                | intros i Heq ]; discriminate Heq.
    split.
    - apply step. intros nested (i & name & fields & [= <-] & Hin & Hget).
      rewrite Forall_forall in IHitems.
      destruct (IHitems _ Hin) as [_ Hfields]. simpl in Hfields.
      specialize (Hfields fields eq_refl).
      rewrite Forall_forall in Hfields.
      exact (Hfields _ (dict_get_In _ _ _ Hget)).
    - intros i [= <-].
      eapply Forall_impl; [ | exact IHitems ].
      intros kv [H _]. exact H. }
  intros deps. apply both.
Qed.

Section Properties.

Context {env : Env}.

(** *** Loops *)

Lemma for_each_cons {A} (body : A -> M unit) x l s :
  for_each body (x :: l) s =
  match body x s with
  | (Ok _, s') => for_each body l s'
  | (Raise e, s') => (Raise e, s')
  end.
Proof. reflexivity. Qed.

Lemma for_each_app {A} (body : A -> M unit) l1 l2 s :
  for_each body (l1 ++ l2)%list s =
  match for_each body l1 s with
  | (Ok _, s') => for_each body l2 s'
  | (Raise e, s') => (Raise e, s')
  end.
Proof.
  revert s. induction l1 as [ | x l1 IH ]; intros s.
  - reflexivity.
  - simpl app. rewrite !for_each_cons.
    destruct (body x s) as [[[] | e] s1]; [ apply IH | reflexivity ].
Qed.

(** An iteration whose body does nothing can be left out. *)
Lemma for_each_skip {A} (body : A -> M unit) l1 x l2 s :
  (forall s, body x s = (Ok tt, s)) ->
  for_each body (l1 ++ x :: l2)%list s =
  for_each body (l1 ++ l2)%list s.
Proof.
  intros Hskip. rewrite !for_each_app.
  destruct (for_each body l1 s) as [[[] | e] s1]; [ | reflexivity ].
  rewrite for_each_cons, Hskip. reflexivity.
Qed.

(** *** One iteration of the flat traversal *)

Lemma dest_filename_set url h d :
  dict_set "dest-filename" (JStr ("npm-cache/" ++ d))
    [("type", JStr "file"); ("url", url); ("sha512", JStr h)] =
  source_record url h d.
Proof. reflexivity. Qed.

Lemma falsy_hash_false h : falsy_hash (Some h) = false -> h <> "".
Proof.
  simpl. intros H ->. discriminate.
Qed.




(** *** One iteration of the tree traversal *)

(** Entries that are not mappings, and mappings without [resolved], are
    passed over. *)
Lemma deps_body_not_dict recurse prefix name info s :
  (forall fields, info <> JDict fields) ->
  deps_body recurse prefix name info s = (Ok tt, s).
Proof.
  intros Hnot. destruct info; try reflexivity.
  now destruct (Hnot items).
Qed.

Lemma deps_body_unresolved recurse prefix name fields s :
  dict_get "resolved" fields = None ->
  deps_body recurse prefix name (JDict fields) s = (Ok tt, s).
Proof.
  intros Hres. unfold deps_body. now rewrite Hres.
Qed.

Lemma descend_eq recurse prefix name fields :
  match dict_get_with (fun d => recurse d (prefix ++ name ++ "/"))
          "dependencies" fields with
  | Some nested => nested
  | None => ret tt
  end = descend recurse prefix name fields.
Proof.
  unfold descend. rewrite dict_get_with_map.
  now destruct (dict_get "dependencies" fields).
Qed.

(** An entry with a [sha512-] integrity string and a string URL: its
    record is appended, then its nested dependencies are walked. *)
Lemma deps_body_inline recurse prefix name fields u integrity s :
  dict_get "resolved" fields = Some (JStr u) ->
  integrity_of fields = Ok integrity ->
  startswith integrity "sha512-" = true ->
  deps_body recurse prefix name (JDict fields) s =
  descend recurse prefix name fields
    (mkState (world s) (stdout s)
       (sources s ++
        [source_record (JStr u) (str_drop 7 integrity) (last_segment u)])).
Proof.
  intros Hres Hint Hstart. unfold deps_body.
  rewrite Hres, descend_eq. unfold bind, lift, ret, append_source.
  rewrite Hint, Hstart. reflexivity.
Qed.

(** An entry whose hash is fetched, successfully. *)
Lemma deps_body_fetched recurse prefix name fields u integrity data w s :
  dict_get "resolved" fields = Some (JStr u) ->
  integrity_of fields = Ok integrity ->
  startswith integrity "sha512-" = false ->
  urlopen_read (JStr u) (world s) = (Body data, w) ->
  sha512_hexdigest data <> "" ->
  deps_body recurse prefix name (JDict fields) s =
  descend recurse prefix name fields
    (mkState w (stdout s)
       (sources s ++
        [source_record (JStr u) (sha512_hexdigest data) (last_segment u)])).
Proof.
  intros Hres Hint Hstart Hfetch Hne. unfold deps_body.
  rewrite Hres, descend_eq. unfold bind, lift, ret, append_source, get_sha512.
  rewrite Hint, Hstart, Hfetch.
  apply String.eqb_neq in Hne. cbn [falsy_hash]. rewrite Hne. reflexivity.
Qed.

(** An entry whose fetch fails: a warning, no record, no descent. *)
Lemma deps_body_fetch_failed recurse prefix name fields url integrity e w s :
  dict_get "resolved" fields = Some url ->
  integrity_of fields = Ok integrity ->
  startswith integrity "sha512-" = false ->
  urlopen_read url (world s) = (Failed e, w) ->
  print_warning url e = Ok tt ->
  deps_body recurse prefix name (JDict fields) s =
  (Ok tt, mkState w (stdout s ++ [Warning url e]) (sources s)).
Proof.
  intros Hres Hint Hstart Hfetch Hprint. unfold deps_body.
  rewrite Hres. unfold bind, lift, ret, get_sha512.
  rewrite Hint, Hstart, Hfetch, Hprint. reflexivity.
Qed.

(** An entry whose fetch fails and whose warning cannot be printed: the
    exception of the [print] leaves the loop body. *)
Lemma deps_body_warning_error recurse prefix name fields url integrity
    e x w s :
  dict_get "resolved" fields = Some url ->
  integrity_of fields = Ok integrity ->
  startswith integrity "sha512-" = false ->
  urlopen_read url (world s) = (Failed e, w) ->
  print_warning url e = Raise x ->
  deps_body recurse prefix name (JDict fields) s =
  (Raise x, mkState w (stdout s) (sources s)).
Proof.
  intros Hres Hint Hstart Hfetch Hprint. unfold deps_body.
  rewrite Hres. unfold bind, lift, ret, get_sha512.
  rewrite Hint, Hstart, Hfetch, Hprint. reflexivity.
Qed.

(** An iteration appends nothing, or the record of its entry followed by
    what the descent appends. *)
Lemma deps_body_sources recurse (Q : json -> dict -> Prop)
    prefix name info s res s' :
  (forall fields nested p s res s',
      info = JDict fields ->
      dict_get "dependencies" fields = Some nested ->
      recurse nested p s = (res, s') ->
      exists new, sources s' = (sources s ++ new)%list /\
                  Forall (Q nested) new) ->
  deps_body recurse prefix name info s = (res, s') ->
  exists new,
    sources s' = (sources s ++ new)%list /\
    Forall (fun r => dep_emits info r \/
                     exists fields nested,
                       info = JDict fields /\
                       dict_get "dependencies" fields = Some nested /\
                       Q nested r) new.
Proof.
  intros Hrec.
  assert (Hdescend : forall fields s1 r,
             info = JDict fields ->
             dep_emits info r ->
             sources s1 = (sources s ++ [r])%list ->
             descend recurse prefix name fields s1 = (res, s') ->
             exists new,
               sources s' = (sources s ++ new)%list /\
               Forall (fun r => dep_emits info r \/
                                exists fields nested,
                                  info = JDict fields /\
                                  dict_get "dependencies" fields = Some nested /\
                                  Q nested r) new).
  { intros fields s1 r Hinfo Hr Hs1. unfold descend.
    destruct (dict_get "dependencies" fields) as [nested | ] eqn:Hdeps.
    - intros Hrun.
      destruct (Hrec _ _ _ _ _ _ Hinfo Hdeps Hrun) as (new & Hs' & Hnew).
      exists (r :: new). split.
      + rewrite Hs', Hs1, <- app_assoc. reflexivity.
      + constructor; [ now left | ].
        eapply Forall_impl; [ | exact Hnew ].
        intros r' Hr'. right. now exists fields, nested.
    - intros [= <- <-]. exists [r]. split; [ exact Hs1 | ].
      constructor; [ now left | constructor ]. }
  destruct info as [ | | | | | | fields ];
    try (cbv beta; intros [= <- <-]; exists []; simpl; split;
         [ now rewrite app_nil_r | constructor ]).
  destruct (dict_get "resolved" fields) as [url | ] eqn:Hres.
  2:{ rewrite deps_body_unresolved by exact Hres.
      intros [= <- <-]. exists []. split; [ now rewrite app_nil_r | constructor ]. }
  destruct (integrity_of fields) as [integrity | e] eqn:Hint.
  2:{ unfold deps_body, bind, lift. rewrite Hres, Hint.
      intros [= <- <-]. exists []. split; [ now rewrite app_nil_r | constructor ]. }
  destruct (startswith integrity "sha512-") eqn:Hstart.
  - destruct url as [ | | | | u | | ];
      try (unfold deps_body, bind, lift, ret; rewrite Hres, Hint, Hstart;
           cbn; intros [= <- <-]; exists [];
           split; [ now rewrite app_nil_r | constructor ]).
    rewrite (deps_body_inline _ _ _ _ _ _ _ Hres Hint Hstart).
    apply (Hdescend fields _
             (source_record (JStr u) (str_drop 7 integrity) (last_segment u))
             eq_refl); [ | reflexivity ].
    exists fields, u, (str_drop 7 integrity).
    repeat split; try assumption. left. now exists integrity.
  - destruct (urlopen_read url (world s)) as [[data | err] w] eqn:Hfetch.
    + destruct (String.eqb (sha512_hexdigest data) "") eqn:Hempty.
      { unfold deps_body, bind, lift, ret, get_sha512.
        rewrite Hres, Hint, Hstart, Hfetch. cbn [falsy_hash]. rewrite Hempty.
        intros [= <- <-]. exists [].
        split; [ simpl; now rewrite app_nil_r | constructor ]. }
      apply String.eqb_neq in Hempty.
      destruct url as [ | | | | u | | ];
        try (unfold deps_body, bind, lift, ret, get_sha512;
             rewrite Hres, Hint, Hstart, Hfetch; cbn [falsy_hash];
             apply String.eqb_neq in Hempty; rewrite Hempty;
             cbn; intros [= <- <-]; exists [];
             split; [ now rewrite app_nil_r | constructor ]).
      rewrite (deps_body_fetched _ _ _ _ _ _ _ _ _ Hres Hint Hstart Hfetch Hempty).
      apply (Hdescend fields _
               (source_record (JStr u) (sha512_hexdigest data) (last_segment u))
               eq_refl); [ | reflexivity ].
      exists fields, u, (sha512_hexdigest data).
      repeat split; try assumption.
      right. exists integrity, (world s), w, data. now repeat split.
    + destruct (print_warning url err) as [[] | x] eqn:Hprint.
      * rewrite (deps_body_fetch_failed _ _ _ _ _ _ _ _ _
                   Hres Hint Hstart Hfetch Hprint).
        intros [= <- <-]. exists [].
        split; [ simpl; now rewrite app_nil_r | constructor ].
      * rewrite (deps_body_warning_error _ _ _ _ _ _ _ _ _ _
                   Hres Hint Hstart Hfetch Hprint).
        intros [= <- <-]. exists [].
        split; [ simpl; now rewrite app_nil_r | constructor ].
Qed.

(** The tree traversal appends only records of entries of the tree. *)
Lemma process_deps_sources deps :
  forall prefix s res s',
    process_deps deps prefix s = (res, s') ->
    exists new,
      sources s' = (sources s ++ new)%list /\
      Forall (fun r => exists name info,
                  dep_entry deps name info /\ dep_emits info r) new.
Proof.
  induction deps as [deps IHnested] using nested_ind.
  intros prefix.
  destruct deps as [ | | | | | | items ];
    try (intros s0 res0 s0'; cbn [process_deps]; unfold raise;
         intros [= <- <-]; exists [];
         split; [ now rewrite app_nil_r | constructor ]).
  cbn [process_deps].
  assert (Hloop : forall suffix, incl suffix items ->
             forall s res s',
               for_each (fun p => deps_body process_deps prefix (fst p) (snd p))
                 suffix s = (res, s') ->
               exists new,
                 sources s' = (sources s ++ new)%list /\
                 Forall (fun r => exists name info,
                             dep_entry (JDict items) name info /\
                             dep_emits info r) new).
  { induction suffix as [ | [name info] suffix IH ]; intros Hincl s res s'.
    - intros [= <- <-]. exists [].
      split; [ now rewrite app_nil_r | constructor ].
    - rewrite for_each_cons. cbn [fst snd].
      assert (Hin : In (name, info) items) by (apply Hincl; now left).
      assert (Hincl' : incl suffix items)
        by (intros x Hx; apply Hincl; now right).
      destruct (deps_body process_deps prefix name info s)
        as [r1 s1] eqn:Hstep.
      apply (deps_body_sources process_deps
               (fun nested r => exists n i,
                    dep_entry nested n i /\ dep_emits i r)) in Hstep.
      2:{ intros fields nested p s0 res0 s0' -> Hdeps Hrun.
          apply (IHnested nested) with (prefix := p) (res := res0);
            [ | exact Hrun ].
          now exists items, name, fields. }
      destruct Hstep as (new1 & Hs1 & Hnew1).
      assert (Hnew1' : Forall (fun r => exists name info,
                                   dep_entry (JDict items) name info /\
                                   dep_emits info r) new1).
      { eapply Forall_impl; [ | exact Hnew1 ].
        intros r [Hr | (fields & nested & -> & Hdeps & n & i & Hent & Hr)].
        - exists name, info. split; [ now apply dep_here | exact Hr ].
        - exists n, i. split; [ | exact Hr ].
          now apply dep_below with name fields nested. }
      destruct r1 as [[] | e].
      + intros Hrest.
        destruct (IH Hincl' _ _ _ Hrest) as (new2 & Hs2 & Hnew2).
        exists (new1 ++ new2)%list. split.
        * now rewrite Hs2, Hs1, app_assoc.
        * apply Forall_app. now split.
      + intros [= <- <-]. now exists new1. }
  intros s res s'. apply Hloop. apply incl_refl.
Qed.

(** *** The whole traversal *)

(** On a document with a [packages] mapping the flat traversal runs, from
    an empty list. *)
Lemma process_package_lock_flat d items s :
  dict_get "packages" d = Some (JDict items) ->
  process_package_lock (JDict d) s =
  match process_packages items (mkState (world s) (stdout s) []) with
  | (Ok _, s1) => (Ok (sources s1), s1)
  | (Raise e, s1) => (Raise e, s1)
  end.
Proof.
  intros Hget. unfold process_package_lock, bind, lift, ret, py_in, dict_mem,
    py_getitem, py_items.
  rewrite Hget. reflexivity.
Qed.

(** Without [packages] and with [dependencies], the tree traversal runs. *)
Lemma process_package_lock_tree d deps s :
  dict_get "packages" d = None ->
  dict_get "dependencies" d = Some deps ->
  process_package_lock (JDict d) s =
  match process_deps deps "" (mkState (world s) (stdout s) []) with
  | (Ok _, s1) => (Ok (sources s1), s1)
  | (Raise e, s1) => (Raise e, s1)
  end.
Proof.
  intros Hp Hd. unfold process_package_lock, bind, lift, ret, py_in, dict_mem,
    py_getitem.
  rewrite Hp, Hd. reflexivity.
Qed.


(** *** Equations of the two loops *)

Lemma process_deps_items items prefix :
  process_deps (JDict items) prefix =
  for_each (fun p => deps_body process_deps prefix (fst p) (snd p)) items.
Proof. reflexivity. Qed.

Lemma process_deps_cons name info rest prefix s :
  process_deps (JDict ((name, info) :: rest)) prefix s =
  match deps_body process_deps prefix name info s with
  | (Ok _, s1) => process_deps (JDict rest) prefix s1
  | (Raise e, s1) => (Raise e, s1)
  end.
Proof. reflexivity. Qed.

Lemma process_packages_cons name info rest s :
  process_packages ((name, info) :: rest) s =
  match package_body name info s with
  | (Ok _, s1) => process_packages rest s1
  | (Raise e, s1) => (Raise e, s1)
  end.
Proof. reflexivity. Qed.

Lemma package_body_root info s : package_body "" info s = (Ok tt, s).
Proof. reflexivity. Qed.

Lemma package_body_unresolved name fields s :
  dict_get "resolved" fields = None ->
  package_body name (JDict fields) s = (Ok tt, s).
Proof.
  intros Hres. unfold package_body. rewrite Hres.
  now destruct (String.eqb name "").
Qed.

(** The flat iteration of an entry whose hash has to be fetched. *)
Lemma package_body_fetched name fields url integrity data w d s :
  name <> "" ->
  dict_get "resolved" fields = Some url ->
  truthy url = true ->
  integrity_of fields = Ok integrity ->
  startswith integrity "sha512-" = false ->
  urlopen_read url (world s) = (Body data, w) ->
  sha512_hexdigest data <> "" ->
  dest_name name url = Ok d ->
  package_body name (JDict fields) s =
  (Ok tt,
   mkState w (stdout s)
     (sources s ++ [source_record url (sha512_hexdigest data) d])).
Proof.
  intros Hname Hres Htruthy Hint Hstart Hfetch Hne Hdest.
  apply String.eqb_neq in Hname, Hne.
  unfold package_body. rewrite Hname, Hres, Htruthy. cbn [negb].
  unfold bind, lift, ret, get_sha512, append_source.
  rewrite Hint, Hstart, Hfetch.
  cbn [falsy_hash]. rewrite Hne, Hdest. reflexivity.
Qed.

Lemma package_body_fetch_failed name fields url integrity e w s :
  name <> "" ->
  dict_get "resolved" fields = Some url ->
  truthy url = true ->
  integrity_of fields = Ok integrity ->
  startswith integrity "sha512-" = false ->
  urlopen_read url (world s) = (Failed e, w) ->
  print_warning url e = Ok tt ->
  package_body name (JDict fields) s =
  (Ok tt, mkState w (stdout s ++ [Warning url e]) (sources s)).
Proof.
  intros Hname Hres Htruthy Hint Hstart Hfetch Hprint.
  apply String.eqb_neq in Hname.
  unfold package_body. rewrite Hname, Hres, Htruthy. cbn [negb].
  unfold bind, lift, ret, get_sha512.
  rewrite Hint, Hstart, Hfetch, Hprint. reflexivity.
Qed.

Lemma package_body_warning_error name fields url integrity e x w s :
  name <> "" ->
  dict_get "resolved" fields = Some url ->
  truthy url = true ->
  integrity_of fields = Ok integrity ->
  startswith integrity "sha512-" = false ->
  urlopen_read url (world s) = (Failed e, w) ->
  print_warning url e = Raise x ->
  package_body name (JDict fields) s =
  (Raise x, mkState w (stdout s) (sources s)).
Proof.
  intros Hname Hres Htruthy Hint Hstart Hfetch Hprint.
  apply String.eqb_neq in Hname.
  unfold package_body. rewrite Hname, Hres, Htruthy. cbn [negb].
  unfold bind, lift, ret, get_sha512.
  rewrite Hint, Hstart, Hfetch, Hprint. reflexivity.
Qed.


(** *** What one iteration, and the whole flat traversal, appends *)

(** The iteration for an entry appends nothing, or exactly the record of
    that entry, with the hash decoded from its own integrity string or
    the digest of the body fetched for it in this very state. *)
Lemma package_body_output name info s res s1 :
  package_body name info s = (res, s1) ->
  sources s1 = sources s \/
  exists fields url h d,
    info = JDict fields /\ name <> "" /\
    dict_get "resolved" fields = Some url /\ truthy url = true /\
    dest_name name url = Ok d /\
    res = Ok tt /\
    sources s1 = (sources s ++ [source_record url h d])%list /\
    (decoded_hash fields h \/
     exists integrity data,
       integrity_of fields = Ok integrity /\
       startswith integrity "sha512-" = false /\
       urlopen_read url (world s) = (Body data, world s1) /\
       h = sha512_hexdigest data /\ h <> "").
Proof.
  unfold package_body, bind, lift, ret, raise, get_sha512, append_source.
  destruct (String.eqb name "") eqn:Hname;
    [ cbv beta; intros [= <- <-]; now left | ].
  apply String.eqb_neq in Hname.
  destruct info as [ | | | | | | fields ];
    try (cbv beta; intros [= <- <-]; now left).
  destruct (dict_get "resolved" fields) as [url | ] eqn:Hres;
    [ | cbv beta; intros [= <- <-]; now left ].
  destruct (truthy url) eqn:Htruthy; cbn [negb]; cbv beta iota;
    [ | intros [= <- <-]; now left ].
  destruct (integrity_of fields) as [integrity | e] eqn:Hint;
    [ | intros [= <- <-]; now left ].
  destruct (startswith integrity "sha512-") eqn:Hstart.
  - destruct (b64decode (prepare_b64 integrity)) as [b | e] eqn:Hdec;
      [ | intros [= <- <-]; now left ].
    destruct (dest_name name url) as [d | e] eqn:Hdest;
      [ | cbv beta; intros [= <- <-]; now left ].
    cbv beta. intros [= <- <-]. right.
    exists fields, url, (hex b), d. repeat split; try assumption.
    left. now exists integrity, b.
  - destruct (urlopen_read url (world s)) as [[data | err] w] eqn:Hfetch.
    + destruct (falsy_hash (Some (sha512_hexdigest data))) eqn:Hfalsy;
        [ cbv beta; intros [= <- <-]; now left | ].
      cbn [sources stdout world].
      destruct (dest_name name url) as [d | e] eqn:Hdest;
        [ | cbv beta; intros [= <- <-]; now left ].
      cbv beta. intros [= <- <-]. right.
      exists fields, url, (sha512_hexdigest data), d.
      repeat split; try assumption.
      right. exists integrity, data. repeat split; try assumption.
      now apply falsy_hash_false.
    + destruct (print_warning url err);
        cbv beta; intros [= <- <-]; now left.
Qed.

(** A list of records laid out along the entries of the [packages]
    mapping: for each entry in turn, no record or the one record the
    traversal emits for that entry. *)
Lemma process_packages_aligned items : forall s s1,
  process_packages items s = (Ok tt, s1) ->
  exists outs,
    sources s1 = (sources s ++ List.concat outs)%list /\
    Forall2 (fun p out =>
               out = [] \/
               exists r, out = [r] /\ package_emits (fst p) (snd p) r)
      items outs.
Proof.
  induction items as [ | [name info] items IH ]; intros s s1.
  - intros [= <-]. exists []. split; [ now rewrite app_nil_r | constructor ].
  - rewrite process_packages_cons.
    destruct (package_body name info s) as [[[] | e] s0] eqn:Hstep;
      [ | discriminate ].
    intros Hrest. destruct (IH _ _ Hrest) as (outs & Hs1 & Hall).
    destruct (package_body_output _ _ _ _ _ Hstep)
      as [Hs0 | (fields & url & h & d & -> & Hname & Hres & Htruthy & Hdest
                 & _ & Hs0 & Hhash)].
    + exists ([] :: outs). split.
      * cbn [List.concat app]. now rewrite Hs1, Hs0.
      * constructor; [ now left | exact Hall ].
    + exists ([source_record url h d] :: outs). split.
      * cbn [List.concat]. now rewrite Hs1, Hs0, <- app_assoc.
      * constructor; [ | exact Hall ].
        right. exists (source_record url h d). split; [ reflexivity | ].
        split; [ exact Hname | ].
        exists fields, url, h, d. repeat split; try assumption.
        destruct Hhash as [Hdec | (integrity & data & Hi & Hst & Hf & -> & Hne)];
          [ now left | right ].
        now exists integrity, (world s), (world s0), data.
Qed.

Lemma process_package_lock_aligned d items s srcs s1 :
  dict_get "packages" d = Some (JDict items) ->
  process_package_lock (JDict d) s = (Ok srcs, s1) ->
  exists outs,
    srcs = List.concat outs /\
    Forall2 (fun p out =>
               out = [] \/
               exists r, out = [r] /\ package_emits (fst p) (snd p) r)
      items outs.
Proof.
  intros Hp. rewrite (process_package_lock_flat _ _ _ Hp).
  destruct (process_packages items _) as [[[] | e] s0] eqn:Hrun;
    [ | discriminate ].
  intros [= <- <-].
  destruct (process_packages_aligned _ _ _ Hrun) as (outs & Hs & Hall).
  exists outs. split; [ exact Hs | exact Hall ].
Qed.

Lemma process_package_lock_from_tree d deps s srcs s1 :
  dict_get "packages" d = None ->
  dict_get "dependencies" d = Some deps ->
  process_package_lock (JDict d) s = (Ok srcs, s1) ->
  Forall (from_dependencies deps) srcs.
Proof.
  intros Hp Hd. rewrite (process_package_lock_tree _ _ _ Hp Hd).
  destruct (process_deps deps "" _) as [[[] | e] s0] eqn:Hrun;
    [ | discriminate ].
  intros [= <- <-].
  destruct (process_deps_sources _ _ _ _ _ Hrun) as (new & Hs & Hnew).
  rewrite Hs. exact Hnew.
Qed.


(** ** The claims *)

(** C10: in the tree traversal an entry whose value is not a mapping (a
    string, a number, a list, null) is passed over without an exception:
    its iteration returns normally and changes nothing, and the traversal
    gives what it gives on the mapping without that entry, wherever the
    entry stands among its siblings. *)
Theorem non_mapping_dependency_is_skipped before name v after prefix s :
  (forall fields, v <> JDict fields) ->
  deps_body process_deps prefix name v s = (Ok tt, s) /\
  process_deps (JDict (before ++ (name, v) :: after)%list) prefix s =
  process_deps (JDict (before ++ after)%list) prefix s.
Proof.
  intros Hnot. split.
  - now apply deps_body_not_dict.
  - rewrite !process_deps_items. apply for_each_skip.
    intros s0. now apply deps_body_not_dict.
Qed.

(** X19: the flat-form entry whose key is the empty string, and in either
    form a mapping without the [resolved] key, contribute nothing: the
    traversal of a mapping that contains such an entry is the traversal
    of the mapping without it, wherever the entry stands. *)
Theorem no_record_for_root_or_unresolved_entry :
  (forall before info after s,
      process_packages (before ++ ("", info) :: after)%list s =
      process_packages (before ++ after)%list s) /\
  (forall before name fields after s,
      dict_get "resolved" fields = None ->
      process_packages (before ++ (name, JDict fields) :: after)%list s =
      process_packages (before ++ after)%list s) /\
  (forall before name fields after prefix s,
      dict_get "resolved" fields = None ->
      process_deps (JDict (before ++ (name, JDict fields) :: after)%list) prefix s =
      process_deps (JDict (before ++ after)%list) prefix s).
Proof.
  repeat split.
  - intros before info after s. unfold process_packages.
    apply for_each_skip. intros s0. apply package_body_root.
  - intros before name fields after s Hres. unfold process_packages.
    apply for_each_skip. intros s0. now apply package_body_unresolved.
  - intros before name fields after prefix s Hres.
    rewrite !process_deps_items. apply for_each_skip.
    intros s0. now apply deps_body_unresolved.
Qed.

(** X18: in the flat form, for an entry whose integrity string is absent
    or does not start with [sha512-], the hash is the hexadecimal digest
    of the body fetched from the entry's URL; when the fetch fails and
    the warning can be printed, [get_sha512] returns [None], the warning
    names the URL, no record is appended for the entry, and the loop goes
    on with the entries that follow. *)
Theorem fetched_hash_and_failed_fetch name fields url integrity rest s :
  name <> "" ->
  dict_get "resolved" fields = Some url ->
  truthy url = true ->
  integrity_of fields = Ok integrity ->
  startswith integrity "sha512-" = false ->
  (forall data w d,
      urlopen_read url (world s) = (Body data, w) ->
      sha512_hexdigest data <> "" ->
      dest_name name url = Ok d ->
      process_packages ((name, JDict fields) :: rest) s =
      process_packages rest
        (mkState w (stdout s)
           (sources s ++ [source_record url (sha512_hexdigest data) d]))) /\
  (forall e w,
      urlopen_read url (world s) = (Failed e, w) ->
      print_warning url e = Ok tt ->
      get_sha512 url s =
        (Ok None, mkState w (stdout s ++ [Warning url e]) (sources s)) /\
      process_packages ((name, JDict fields) :: rest) s =
      process_packages rest
        (mkState w (stdout s ++ [Warning url e]) (sources s))).
Proof.
  intros Hname Hres Htruthy Hint Hstart. split.
  - intros data w d Hfetch Hne Hdest.
    rewrite process_packages_cons.
    now rewrite (package_body_fetched _ _ _ _ _ _ _ _
                   Hname Hres Htruthy Hint Hstart Hfetch Hne Hdest).
  - intros e w Hfetch Hprint. split.
    + unfold get_sha512. now rewrite Hfetch, Hprint.
    + rewrite process_packages_cons.
      now rewrite (package_body_fetch_failed _ _ _ _ _ _ _
                     Hname Hres Htruthy Hint Hstart Hfetch Hprint).
Qed.

(** C4, as the traversal is written: the nested dependencies of a record
    are walked right after the record's own source has been appended, when
    the record is a mapping with a [resolved] string and a [sha512-]
    integrity string or a digest that could be fetched; the siblings
    follow.  A record without the [resolved] key is passed over together
    with its nested dependencies: whatever it holds, the traversal is that
    of its siblings. *)
Theorem nested_dependencies_follow_an_emitted_record
    name fields rest prefix s :
  (dict_get "resolved" fields = None ->
   process_deps (JDict ((name, JDict fields) :: rest)) prefix s =
   process_deps (JDict rest) prefix s) /\
  (forall u integrity nested,
      dict_get "resolved" fields = Some (JStr u) ->
      integrity_of fields = Ok integrity ->
      startswith integrity "sha512-" = true ->
      dict_get "dependencies" fields = Some nested ->
      process_deps (JDict ((name, JDict fields) :: rest)) prefix s =
      match process_deps nested (prefix ++ name ++ "/")
              (mkState (world s) (stdout s)
                 (sources s ++
                  [source_record (JStr u) (str_drop 7 integrity)
                     (last_segment u)])) with
      | (Ok _, s1) => process_deps (JDict rest) prefix s1
      | (Raise e, s1) => (Raise e, s1)
      end) /\
  (forall u integrity data w nested,
      dict_get "resolved" fields = Some (JStr u) ->
      integrity_of fields = Ok integrity ->
      startswith integrity "sha512-" = false ->
      urlopen_read (JStr u) (world s) = (Body data, w) ->
      sha512_hexdigest data <> "" ->
      dict_get "dependencies" fields = Some nested ->
      process_deps (JDict ((name, JDict fields) :: rest)) prefix s =
      match process_deps nested (prefix ++ name ++ "/")
              (mkState w (stdout s)
                 (sources s ++
                  [source_record (JStr u) (sha512_hexdigest data)
                     (last_segment u)])) with
      | (Ok _, s1) => process_deps (JDict rest) prefix s1
      | (Raise e, s1) => (Raise e, s1)
      end).
Proof.
  repeat split.
  - intros Hres. rewrite process_deps_cons.
    now rewrite deps_body_unresolved.
  - intros u integrity nested Hres Hint Hstart Hdeps.
    rewrite process_deps_cons.
    rewrite (deps_body_inline _ _ _ _ _ _ _ Hres Hint Hstart).
    unfold descend. now rewrite Hdeps.
  - intros u integrity data w nested Hres Hint Hstart Hfetch Hne Hdeps.
    rewrite process_deps_cons.
    rewrite (deps_body_fetched _ _ _ _ _ _ _ _ _ Hres Hint Hstart Hfetch Hne).
    unfold descend. now rewrite Hdeps.
Qed.

(** *** A decode error ends the run *)


Lemma main_eq data w :
  main data w =
  match process_package_lock data (mkState w [Processing] []) with
  | (Ok srcs, s) =>
      mkOutcome 0 (Some srcs) (stdout s ++ [Generated (List.length srcs)])
  | (Raise _, s) => mkOutcome 1 None (stdout s)
  end.
Proof.
  unfold main, bind, print, ret. cbn [world stdout sources app].
  now destruct (process_package_lock data _) as [[srcs | e] s].
Qed.


(** *** The fields of a record *)

Lemma source_record_fields url h dst :
  dict_keys (source_record url h dst) =
    ["type"; "url"; "sha512"; "dest-filename"] /\
  dict_get "type" (source_record url h dst) = Some (JStr "file") /\
  dict_get "url" (source_record url h dst) = Some url /\
  dict_get "sha512" (source_record url h dst) = Some (JStr h) /\
  dict_get "dest-filename" (source_record url h dst) =
    Some (JStr ("npm-cache/" ++ dst)).
Proof. now repeat split. Qed.





(** X20: the destination filenames.  In the flat form the list lies along
    the entries of the mapping, each entry with no record or its own one,
    whose filename is "npm-cache/" followed by the entry's key without its
    "node_modules/" prefix when it has that prefix, else by the last
    "/"-separated segment of the path of the entry's URL.  In the tree
    form the filename of every record is "npm-cache/" followed by
    whatever follows the last "/" of the record's own URL string. *)
Theorem destination_filename :
  (forall d items s srcs s',
      dict_get "packages" d = Some (JDict items) ->
      process_package_lock (JDict d) s = (Ok srcs, s') ->
      exists outs,
        srcs = List.concat outs /\
        Forall2
          (fun p out =>
             out = [] \/
             exists fields url h dst,
               snd p = JDict fields /\ fst p <> "" /\
               dict_get "resolved" fields = Some url /\
               truthy url = true /\
               (decoded_hash fields h \/ fetched_hash fields url h) /\
               out = [source_record url h dst] /\
               (startswith (fst p) "node_modules/" = true ->
                dst = str_drop 13 (fst p)) /\
               (startswith (fst p) "node_modules/" = false ->
                exists path,
                  urlparse_path url = Ok path /\
                  dst = last_segment path))
          items outs) /\
  (forall d deps s srcs s',
      dict_get "packages" d = None ->
      dict_get "dependencies" d = Some deps ->
      process_package_lock (JDict d) s = (Ok srcs, s') ->
      Forall (fun r =>
                exists name fields u h,
                  dep_entry deps name (JDict fields) /\
                  dict_get "resolved" fields = Some (JStr u) /\
                  (raw_hash fields h \/ fetched_hash fields (JStr u) h) /\
                  r = source_record (JStr u) h (last_segment u)) srcs).
Proof.
  split.
  - intros d items s srcs s' Hp Hrun.
    destruct (process_package_lock_aligned _ _ _ _ _ Hp Hrun)
      as (outs & Hsrcs & Hall).
    exists outs. split; [ exact Hsrcs | ].
    eapply Forall2_impl; [ | exact Hall ].
    intros p out [-> | (r & -> & Hname & fields & url & h & dst
                        & Hinfo & Hres & Htruthy & Hhash & Hdest & ->)];
      [ now left | right ].
    exists fields, url, h, dst.
    repeat split; try assumption; unfold dest_name in Hdest; intros Hstart;
      rewrite Hstart in Hdest.
    + now injection Hdest as <-.
    + destruct (urlparse_path url) as [path | e]; [ | discriminate ].
      exists path. split; [ reflexivity | now injection Hdest as <- ].
  - intros d deps s srcs s' Hp Hd Hrun.
    eapply Forall_impl;
      [ | exact (process_package_lock_from_tree _ _ _ _ _ Hp Hd Hrun) ].
    intros r (name & info & Hent & fields & u & h & -> & Hres & Hhash & ->).
    now exists name, fields, u, h.
Qed.


(** ** Further properties of the traversals *)

(** *** What one iteration of the flat traversal can do *)

Ltac effects_done :=
  cbv beta; intros [= <- <-]; cbn [sources stdout world];
  first
    [ exists [], []; rewrite !app_nil_r;
      repeat split; (reflexivity || (cbn; lia))
    | eexists [_], []; rewrite ?app_nil_r;
      repeat split; (reflexivity || (cbn; lia))
    | eexists [], [_]; rewrite ?app_nil_r;
      repeat split; (reflexivity || (cbn; lia)) ].

(** At most one record or one warning, none for an entry that line 34
    leaves out, and nothing else. *)
Lemma package_body_effects name info s res s1 :
  package_body name info s = (res, s1) ->
  exists new out,
    sources s1 = (sources s ++ new)%list /\
    stdout s1 = (stdout s ++ out)%list /\
    (List.length new + List.length out <=
     if resolvable (name, info) then 1 else 0)%nat /\
    forallb is_warning out = true.
Proof.
  unfold package_body, bind, lift, ret, raise, get_sha512, append_source,
    resolvable.
  cbn [fst snd].
  destruct (String.eqb name ""); [ effects_done | ].
  destruct info as [ | | | | | | fields ]; try effects_done.
  destruct (dict_get "resolved" fields) as [url | ]; [ | effects_done ].
  destruct (truthy url); cbn [negb]; cbv beta iota; [ | effects_done ].
  destruct (integrity_of fields) as [integrity | e]; [ | effects_done ].
  destruct (startswith integrity "sha512-").
  - destruct (b64decode (prepare_b64 integrity)); [ | effects_done ].
    destruct (dest_name name url); effects_done.
  - destruct (urlopen_read url (world s)) as [[data | err] w];
      [ | destruct (print_warning url err); effects_done ].
    destruct (falsy_hash (Some (sha512_hexdigest data)));
      [ effects_done | ].
    cbn [sources stdout world].
    destruct (dest_name name url); effects_done.
Qed.

Lemma process_packages_effects items : forall s res s1,
  process_packages items s = (res, s1) ->
  exists new out,
    sources s1 = (sources s ++ new)%list /\
    stdout s1 = (stdout s ++ out)%list /\
    (List.length new + List.length out <=
     List.length (filter resolvable items))%nat /\
    forallb is_warning out = true.
Proof.
  induction items as [ | [name info] items IH ]; intros s res s1.
  - intros [= <- <-]. exists [], []. rewrite !app_nil_r. now repeat split.
  - rewrite process_packages_cons.
    destruct (package_body name info s) as [r0 s0] eqn:Hstep.
    destruct (package_body_effects _ _ _ _ _ Hstep)
      as (new0 & out0 & Hs0 & Ho0 & Hlen0 & Hw0).
    cbn [filter].
    destruct r0 as [[] | e].
    + intros Hrest.
      destruct (IH _ _ _ Hrest) as (new1 & out1 & Hs1 & Ho1 & Hlen1 & Hw1).
      exists (new0 ++ new1)%list, (out0 ++ out1)%list.
      rewrite Hs1, Hs0, Ho1, Ho0, !app_assoc, forallb_app, Hw0, Hw1.
      repeat split. rewrite !length_app.
      destruct (resolvable (name, info)); cbn [List.length]; lia.
    + intros [= <- <-]. exists new0, out0.
      repeat split; try assumption.
      destruct (resolvable (name, info)); cbn [List.length]; lia.
Qed.

(** X1: A run over a [packages] mapping accounts for its entries: the records
    it returns and the lines it has printed by then, all of them warnings,
    are together no more than the entries that have a key and a resolved
    URL. *)
Theorem flat_run_accounts_for_entries d items s srcs s1 :
  dict_get "packages" d = Some (JDict items) ->
  process_package_lock (JDict d) s = (Ok srcs, s1) ->
  exists out,
    stdout s1 = (stdout s ++ out)%list /\
    forallb is_warning out = true /\
    (List.length srcs + List.length out <=
     List.length (filter resolvable items))%nat.
Proof.
  intros Hp. rewrite (process_package_lock_flat _ _ _ Hp).
  destruct (process_packages items _) as [[[] | e] s0] eqn:Hrun;
    [ | discriminate ].
  intros [= <- <-].
  destruct (process_packages_effects _ _ _ _ Hrun)
    as (new & out & Hs & Ho & Hlen & Hw).
  cbn [sources stdout app] in Hs, Ho.
  exists out. rewrite Hs. now repeat split.
Qed.

(** *** Entries that end the run *)

(** A loop with an iteration that raises from every state raises. *)
Lemma for_each_raises {A} (body : A -> M unit) x l :
  In x l ->
  (forall s, exists e s', body x s = (Raise e, s')) ->
  forall s, exists e s', for_each body l s = (Raise e, s').
Proof.
  intros Hin Hraise.
  induction l as [ | y l IH ]; [ contradiction | ].
  intros s. rewrite for_each_cons.
  destruct Hin as [-> | Hin].
  - destruct (Hraise s) as (e & s' & ->). now exists e, s'.
  - destruct (body y s) as [[[] | e1] s1].
    + apply (IH Hin).
    + now exists e1, s1.
Qed.

Lemma main_raises data w :
  (forall s, exists e s', process_package_lock data s = (Raise e, s')) ->
  exit_code (main data w) = 1 /\ output_file (main data w) = None.
Proof.
  intros Hraise. rewrite main_eq.
  destruct (Hraise (mkState w [Processing] [])) as (e & s' & ->).
  now split.
Qed.

Lemma package_body_not_dict name info s :
  name <> "" ->
  (forall fields, info <> JDict fields) ->
  package_body name info s = (Raise AttributeError, s).
Proof.
  intros Hname Hnot. apply String.eqb_neq in Hname.
  unfold package_body. rewrite Hname.
  destruct info; try reflexivity. now destruct (Hnot items).
Qed.

(** X2: In the flat form an entry with a key whose value is not a mapping
    ends the run: [info.get] raises [AttributeError] in its iteration, the
    state as it was, nothing is written and the exit status is 1. *)
Theorem flat_non_mapping_entry_aborts_the_run d items name info w :
  dict_get "packages" d = Some (JDict items) ->
  In (name, info) items ->
  name <> "" ->
  (forall fields, info <> JDict fields) ->
  (forall s, package_body name info s = (Raise AttributeError, s)) /\
  exit_code (main (JDict d) w) = 1 /\
  output_file (main (JDict d) w) = None.
Proof.
  intros Hp Hin Hname Hnot. split.
  - intros s. now apply package_body_not_dict.
  - apply main_raises. intros s.
    rewrite (process_package_lock_flat _ _ _ Hp).
    destruct (for_each_raises
                (fun p => package_body (fst p) (snd p)) (name, info) items Hin)
      with (s := mkState (world s) (stdout s) []) as (e & s' & Hrun).
    + intros s0. exists AttributeError, s0.
      now apply package_body_not_dict.
    + unfold process_packages. rewrite Hrun. now exists e, s'.
Qed.

(** X3: An integrity value that is there and is not a string has no
    [startswith]: the iteration raises [AttributeError] with the state as
    it was, in the flat form (for an entry that line 34 lets through) and
    in the tree form, whatever the recursion would do. *)
Theorem non_string_integrity_raises name fields url v s :
  dict_get "resolved" fields = Some url ->
  dict_get "integrity" fields = Some v ->
  (forall i, v <> JStr i) ->
  (name <> "" -> truthy url = true ->
   package_body name (JDict fields) s = (Raise AttributeError, s)) /\
  (forall recurse prefix,
      deps_body recurse prefix name (JDict fields) s =
      (Raise AttributeError, s)).
Proof.
  intros Hres Hint Hnot.
  assert (Hraise : integrity_of fields = Raise AttributeError).
  { unfold integrity_of. rewrite Hint.
    destruct v; try reflexivity. now destruct (Hnot s0). }
  split.
  - intros Hname Htruthy. apply String.eqb_neq in Hname.
    unfold package_body. rewrite Hname, Hres, Htruthy. cbn [negb].
    unfold bind, lift. now rewrite Hraise.
  - intros recurse prefix. unfold deps_body. rewrite Hres.
    unfold bind, lift. now rewrite Hraise.
Qed.

Lemma package_body_falsy name fields url s :
  dict_get "resolved" fields = Some url ->
  truthy url = false ->
  package_body name (JDict fields) s = (Ok tt, s).
Proof.
  intros Hres Hfalse. unfold package_body. rewrite Hres, Hfalse.
  now destruct (String.eqb name "").
Qed.

(** X4: In the flat form an entry whose resolved value is false (an empty
    string, null, zero, false, an empty list or mapping) is left out like
    one without the key, wherever it stands: the traversal is that of the
    mapping without it. *)
Theorem flat_entry_with_false_url_is_skipped
    before name fields url after s :
  dict_get "resolved" fields = Some url ->
  truthy url = false ->
  process_packages (before ++ (name, JDict fields) :: after)%list s =
  process_packages (before ++ after)%list s.
Proof.
  intros Hres Hfalse. unfold process_packages.
  apply for_each_skip. intros s0. cbn [fst snd].
  now apply package_body_falsy with url.
Qed.

(** *** Lockfiles that need no request *)

Lemma state_eta (s : state) :
  mkState (world s) (stdout s) (sources s ++ [])%list = s.
Proof. destruct s. cbn. now rewrite app_nil_r. Qed.

(** An entry with [fetch] off: the state after its iteration is the state
    before with the records of the entry appended, and these depend on
    the entry alone. *)
Lemma package_body_offline name info :
  guarded_entry false (name, info) = true ->
  exists recs,
    List.length recs = (if resolvable (name, info) then 1 else 0)%nat /\
    forall s,
      package_body name info s =
      (Ok tt, mkState (world s) (stdout s) (sources s ++ recs)%list).
Proof.
  unfold guarded_entry, resolvable, package_body. cbn [fst snd].
  destruct (String.eqb name "") eqn:Hname; cbn [orb negb andb].
  { intros _. exists []. split; [ reflexivity | ].
    intros s. now rewrite state_eta. }
  destruct info as [ | | | | | | fields ]; try discriminate.
  destruct (dict_get "resolved" fields) as [url | ].
  2:{ intros _. exists []. split; [ reflexivity | ].
      intros s. now rewrite state_eta. }
  destruct (truthy url); cbn [orb negb].
  2:{ intros _. exists []. split; [ reflexivity | ].
      intros s. now rewrite state_eta. }
  unfold bind, lift, ret, append_source.
  destruct (integrity_of fields) as [integrity | e]; [ | discriminate ].
  destruct (startswith integrity "sha512-"); [ | discriminate ].
  destruct (b64decode (prepare_b64 integrity)) as [b | e];
    [ | discriminate ].
  destruct (dest_name name url) as [dst | e]; [ | discriminate ].
  intros _. eexists [_]. split; [ reflexivity | ].
  intros s. reflexivity.
Qed.

Lemma process_packages_offline items :
  forallb (guarded_entry false) items = true ->
  exists recs,
    List.length recs = List.length (filter resolvable items) /\
    forall s,
      process_packages items s =
      (Ok tt, mkState (world s) (stdout s) (sources s ++ recs)%list).
Proof.
  induction items as [ | [name info] items IH ].
  - intros _. exists []. split; [ reflexivity | ].
    intros s. cbn. now rewrite state_eta.
  - cbn [forallb]. intros Hall. apply andb_true_iff in Hall as [Hhead Hrest].
    destruct (package_body_offline _ _ Hhead) as (recs0 & Hlen0 & Hstep).
    destruct (IH Hrest) as (recs1 & Hlen1 & Hloop).
    exists (recs0 ++ recs1)%list. split.
    + rewrite length_app, Hlen0, Hlen1. cbn [filter].
      now destruct (resolvable (name, info)).
    + intros s. rewrite process_packages_cons, Hstep, Hloop.
      cbn [world stdout sources]. now rewrite app_assoc.
Qed.

(** X5: A flat lockfile in which every entry with a key is a mapping, and
    each of them with a true resolved value has a string integrity value
    that carries the [sha512-] tag and decodes, and a filename that can
    be formed, is processed without the network: whatever the state of
    the world, the run prints no warning, exits with status 0 and writes
    one and the same list, with exactly one record for each entry that
    has a key and a true resolved value. *)
Theorem offline_lockfile_is_reproducible d items :
  dict_get "packages" d = Some (JDict items) ->
  forallb (guarded_entry false) items = true ->
  exists recs,
    List.length recs = List.length (filter resolvable items) /\
    forall w,
      main (JDict d) w =
      mkOutcome 0 (Some recs) [Processing; Generated (List.length recs)].
Proof.
  intros Hp Hall.
  destruct (process_packages_offline _ Hall) as (recs & Hlen & Hloop).
  exists recs. split; [ exact Hlen | ].
  intros w. rewrite main_eq, (process_package_lock_flat _ _ _ Hp), Hloop.
  reflexivity.
Qed.

(** *** Lockfiles on which the run cannot fail *)

Lemma package_body_guarded name info s :
  (forall url e, print_warning url e = Ok tt) ->
  guarded_entry true (name, info) = true ->
  exists s1, package_body name info s = (Ok tt, s1).
Proof.
  intros Hprint.
  unfold guarded_entry, package_body. cbn [fst snd].
  destruct (String.eqb name ""); cbn [orb].
  { intros _. now exists s. }
  destruct info as [ | | | | | | fields ]; try discriminate.
  destruct (dict_get "resolved" fields) as [url | ];
    [ | intros _; now exists s ].
  destruct (truthy url); cbn [orb negb]; [ | intros _; now exists s ].
  unfold bind, lift, ret, append_source, get_sha512.
  destruct (integrity_of fields) as [integrity | e]; [ | discriminate ].
  destruct (startswith integrity "sha512-").
  - destruct (b64decode (prepare_b64 integrity)) as [b | e];
      [ | discriminate ].
    destruct (dest_name name url) as [dst | e]; [ | discriminate ].
    intros _. eexists. reflexivity.
  - destruct (dest_name name url) as [dst | e]; [ | discriminate ].
    intros _.
    destruct (urlopen_read url (world s)) as [[data | err] w];
      [ | rewrite Hprint; eexists; reflexivity ].
    destruct (falsy_hash (Some (sha512_hexdigest data)));
      eexists; reflexivity.
Qed.

Lemma process_packages_guarded items :
  (forall url e, print_warning url e = Ok tt) ->
  forallb (guarded_entry true) items = true ->
  forall s, exists s1, process_packages items s = (Ok tt, s1).
Proof.
  intros Hprint.
  induction items as [ | [name info] items IH ]; intros Hall s.
  - now exists s.
  - cbn [forallb] in Hall. apply andb_true_iff in Hall as [Hhead Hrest].
    rewrite process_packages_cons.
    destruct (package_body_guarded _ _ s Hprint Hhead) as (s0 & ->).
    apply (IH Hrest).
Qed.

(** X6: On a standard output that takes every warning, no answer of the
    network makes the flat run fail.  When every entry of the [packages]
    mapping is the root or a mapping whose integrity value is absent or a
    string (decodable if tagged) and whose filename can be formed, the
    run ends with status 0 and writes its list, whatever the requests
    give. *)
Theorem flat_run_survives_the_network d items w :
  (forall url e, print_warning url e = Ok tt) ->
  dict_get "packages" d = Some (JDict items) ->
  forallb (guarded_entry true) items = true ->
  exit_code (main (JDict d) w) = 0 /\
  exists srcs, output_file (main (JDict d) w) = Some srcs.
Proof.
  intros Hprint Hp Hall.
  rewrite main_eq, (process_package_lock_flat _ _ _ Hp).
  cbn [world stdout].
  destruct (process_packages_guarded _ Hprint Hall (mkState w [Processing] []))
    as (s1 & ->).
  split; [ reflexivity | ]. now exists (sources s1).
Qed.

(** *** Which traversal runs *)

(** X7: A [packages] key decides: two documents with the same value under it
    are processed alike, whatever else they hold, a [dependencies] tree
    included. *)
Theorem packages_key_takes_precedence d d' p s :
  dict_get "packages" d = Some p ->
  dict_get "packages" d' = Some p ->
  process_package_lock (JDict d) s = process_package_lock (JDict d') s.
Proof.
  intros Hd Hd'.
  unfold process_package_lock, bind, lift, ret, py_in, dict_mem, py_getitem.
  now rewrite Hd, Hd'.
Qed.

(** X8: A document that is not a mapping gives no record: the function
    returns the empty list, or raises [TypeError] (always, for null, a
    boolean or a number), without a request or a printed line. *)
Theorem non_mapping_document_yields_nothing data s :
  (forall d, data <> JDict d) ->
  (process_package_lock data s =
     (Ok [], mkState (world s) (stdout s) []) \/
   process_package_lock data s =
     (Raise TypeError, mkState (world s) (stdout s) [])) /\
  (match data with
   | JNull | JBool _ | JInt _ | JFloat _ _ => True
   | _ => False
   end ->
   process_package_lock data s =
     (Raise TypeError, mkState (world s) (stdout s) [])).
Proof.
  intros Hnot.
  destruct data as [ | | | | str | l | d ];
    try (split; [ right | intros _ ]; reflexivity).
  - split; [ | intros [] ].
    unfold process_package_lock, bind, lift, ret, py_in, py_getitem.
    destruct (str_contains "packages" str); [ now right | ].
    destruct (str_contains "dependencies" str); [ now right | now left ].
  - split; [ | intros [] ].
    unfold process_package_lock, bind, lift, ret, py_in, py_getitem.
    match goal with
    | |- context [existsb ?f l] => destruct (existsb f l)
    end; [ now right | ].
    match goal with
    | |- context [existsb ?f l] => destruct (existsb f l)
    end; [ now right | now left ].
  - now destruct (Hnot d).
Qed.

(** X9: A mapping with neither key is nothing to do: the run writes the empty
    list, prints the two lines around it and exits with status 0. *)
Theorem document_without_either_key_gives_empty_output d w :
  dict_get "packages" d = None ->
  dict_get "dependencies" d = None ->
  main (JDict d) w = mkOutcome 0 (Some []) [Processing; Generated 0].
Proof.
  intros Hp Hd. rewrite main_eq.
  unfold process_package_lock, bind, lift, ret, py_in, dict_mem.
  now rewrite Hp, Hd.
Qed.

(** *** What one iteration of the tree traversal can do *)

Lemma deps_body_integrity_error recurse prefix name fields url e s :
  dict_get "resolved" fields = Some url ->
  integrity_of fields = Raise e ->
  deps_body recurse prefix name (JDict fields) s = (Raise e, s).
Proof.
  intros Hres Hint. unfold deps_body, bind, lift.
  now rewrite Hres, Hint.
Qed.

Lemma deps_body_inline_bad_url recurse prefix name fields url integrity s :
  dict_get "resolved" fields = Some url ->
  (forall u, url <> JStr u) ->
  integrity_of fields = Ok integrity ->
  startswith integrity "sha512-" = true ->
  deps_body recurse prefix name (JDict fields) s = (Raise AttributeError, s).
Proof.
  intros Hres Hnot Hint Hstart. unfold deps_body, bind, lift, ret.
  rewrite Hres, Hint, Hstart.
  destruct url; try reflexivity. now destruct (Hnot s0).
Qed.

Lemma deps_body_fetched_empty recurse prefix name fields url integrity
    data w s :
  dict_get "resolved" fields = Some url ->
  integrity_of fields = Ok integrity ->
  startswith integrity "sha512-" = false ->
  urlopen_read url (world s) = (Body data, w) ->
  sha512_hexdigest data = "" ->
  deps_body recurse prefix name (JDict fields) s =
  (Ok tt, mkState w (stdout s) (sources s)).
Proof.
  intros Hres Hint Hstart Hfetch Hempty.
  unfold deps_body, bind, lift, ret, get_sha512.
  rewrite Hres, Hint, Hstart, Hfetch. cbn [falsy_hash].
  now rewrite Hempty.
Qed.

Lemma deps_body_fetched_bad_url recurse prefix name fields url integrity
    data w s :
  dict_get "resolved" fields = Some url ->
  (forall u, url <> JStr u) ->
  integrity_of fields = Ok integrity ->
  startswith integrity "sha512-" = false ->
  urlopen_read url (world s) = (Body data, w) ->
  sha512_hexdigest data <> "" ->
  deps_body recurse prefix name (JDict fields) s =
  (Raise AttributeError, mkState w (stdout s) (sources s)).
Proof.
  intros Hres Hnot Hint Hstart Hfetch Hne. apply String.eqb_neq in Hne.
  unfold deps_body, bind, lift, ret, get_sha512.
  rewrite Hres, Hint, Hstart, Hfetch. cbn [falsy_hash]. rewrite Hne.
  destruct url; try reflexivity. now destruct (Hnot s0).
Qed.

Lemma not_str_dec url : (exists u, url = JStr u) \/ (forall u, url <> JStr u).
Proof.
  destruct url; try (right; intros u; discriminate). left. now eexists.
Qed.

(** An iteration either ends by itself, with at most a warning printed
    and an outcome that no recursion and no prefix bears on, or appends
    one record and hands over to the descent.  It raises only on an
    integrity value or a URL that is not a string. *)
Lemma deps_body_shape name info s :
  (exists res s1 out,
      (forall recurse prefix,
          deps_body recurse prefix name info s = (res, s1)) /\
      sources s1 = sources s /\
      stdout s1 = (stdout s ++ out)%list /\
      forallb is_warning out = true /\
      (res = Ok tt \/
       (exists fields url,
           info = JDict fields /\ dict_get "resolved" fields = Some url /\
           (is_ok (integrity_of fields) = false \/
            forall u, url <> JStr u)) \/
       exists url e x, print_warning url e = Raise x)) \/
  (exists fields s1 r,
      info = JDict fields /\
      (forall recurse prefix,
          deps_body recurse prefix name info s =
          descend recurse prefix name fields s1) /\
      sources s1 = (sources s ++ [r])%list /\
      stdout s1 = stdout s).
Proof.
  assert (Hquiet : forall res s1 out,
             (forall recurse prefix,
                 deps_body recurse prefix name info s = (res, s1)) ->
             sources s1 = sources s ->
             stdout s1 = (stdout s ++ out)%list ->
             forallb is_warning out = true ->
             (res = Ok tt \/
              (exists fields url,
                  info = JDict fields /\
                  dict_get "resolved" fields = Some url /\
                  (is_ok (integrity_of fields) = false \/
                   forall u, url <> JStr u)) \/
              exists url e x, print_warning url e = Raise x) ->
             exists res s1 out,
               (forall recurse prefix,
                   deps_body recurse prefix name info s = (res, s1)) /\
               sources s1 = sources s /\
               stdout s1 = (stdout s ++ out)%list /\
               forallb is_warning out = true /\
               (res = Ok tt \/
                (exists fields url,
                    info = JDict fields /\
                    dict_get "resolved" fields = Some url /\
                    (is_ok (integrity_of fields) = false \/
                     forall u, url <> JStr u)) \/
                exists url e x, print_warning url e = Raise x)).
  { intros res s1 out H1 H2 H3 H4 H5. now exists res, s1, out. }
  destruct info as [ | | | | | | fields ];
    try (left; apply (Hquiet (Ok tt) s []);
         [ intros; apply deps_body_not_dict; intros f; discriminate
         | reflexivity | now rewrite app_nil_r | reflexivity | now left ]).
  destruct (dict_get "resolved" fields) as [url | ] eqn:Hres.
  2:{ left. apply (Hquiet (Ok tt) s []);
        [ intros; now apply deps_body_unresolved
        | reflexivity | now rewrite app_nil_r | reflexivity | now left ]. }
  destruct (integrity_of fields) as [integrity | e] eqn:Hint.
  2:{ left. apply (Hquiet (Raise e) s []);
        [ intros; now apply deps_body_integrity_error with url
        | reflexivity | now rewrite app_nil_r | reflexivity | ].
      right. left. exists fields, url. repeat split; try assumption.
      left. now rewrite Hint. }
  destruct (startswith integrity "sha512-") eqn:Hstart.
  - destruct (not_str_dec url) as [[u ->] | Hnot].
    + right.
      exists fields,
        (mkState (world s) (stdout s)
           (sources s ++
            [source_record (JStr u) (str_drop 7 integrity) (last_segment u)])),
        (source_record (JStr u) (str_drop 7 integrity) (last_segment u)).
      repeat split. intros recurse prefix.
      now apply deps_body_inline.
    + left. apply (Hquiet (Raise AttributeError) s []);
        [ intros; now apply deps_body_inline_bad_url with url integrity
        | reflexivity | now rewrite app_nil_r | reflexivity | ].
      right. left. exists fields, url. repeat split; try assumption. now right.
  - destruct (urlopen_read url (world s)) as [[data | err] w] eqn:Hfetch.
    + destruct (String.eqb (sha512_hexdigest data) "") eqn:Hempty.
      { apply String.eqb_eq in Hempty.
        left. apply (Hquiet (Ok tt) (mkState w (stdout s) (sources s)) []);
          [ intros; now apply deps_body_fetched_empty with url integrity data
          | reflexivity | cbn; now rewrite app_nil_r | reflexivity
          | now left ]. }
      apply String.eqb_neq in Hempty.
      destruct (not_str_dec url) as [[u ->] | Hnot].
      * right.
        exists fields,
          (mkState w (stdout s)
             (sources s ++
              [source_record (JStr u) (sha512_hexdigest data)
                 (last_segment u)])),
          (source_record (JStr u) (sha512_hexdigest data) (last_segment u)).
        repeat split. intros recurse prefix.
        now apply deps_body_fetched with integrity.
      * left.
        apply (Hquiet (Raise AttributeError)
                 (mkState w (stdout s) (sources s)) []);
          [ intros;
            now apply deps_body_fetched_bad_url with url integrity data
          | reflexivity | cbn; now rewrite app_nil_r | reflexivity | ].
        right. left. exists fields, url. repeat split; try assumption. now right.
    + left. destruct (print_warning url err) as [[] | x] eqn:Hprint.
      * apply (Hquiet (Ok tt)
                 (mkState w (stdout s ++ [Warning url err]) (sources s))
                 [Warning url err]);
          [ intros; now apply deps_body_fetch_failed with integrity
          | reflexivity | reflexivity | reflexivity | now left ].
      * apply (Hquiet (Raise x) (mkState w (stdout s) (sources s)) []);
          [ intros;
            now apply deps_body_warning_error with url integrity err
          | reflexivity | cbn; now rewrite app_nil_r | reflexivity | ].
        right. right. now exists url, err, x.
Qed.

(** A proof about the loop of [process_deps] over the entries of one
    mapping goes along its suffixes. *)
Lemma process_deps_suffix_ind items (P : dict -> state -> Prop) :
  (forall s, P [] s) ->
  (forall name info rest s,
      In (name, info) items ->
      (forall s1, P rest s1) ->
      P ((name, info) :: rest) s) ->
  forall s, P items s.
Proof.
  intros Hnil Hcons.
  assert (H : forall suffix, incl suffix items -> forall s, P suffix s).
  { induction suffix as [ | [name info] rest IH ]; intros Hincl s.
    - apply Hnil.
    - apply Hcons.
      + apply Hincl. now left.
      + apply IH. intros x Hx. apply Hincl. now right. }
  apply H, incl_refl.
Qed.

(** X10: The prefix that [process_deps] builds on its way down bears on
    nothing: with any two prefixes the traversal ends in the same state
    with the same outcome. *)
Theorem prefix_is_never_used deps :
  forall p1 p2 s, process_deps deps p1 s = process_deps deps p2 s.
Proof.
  induction deps as [deps IHnested] using nested_ind.
  intros p1 p2.
  destruct deps as [ | | | | | | items ]; try reflexivity.
  rewrite !process_deps_items.
  apply (process_deps_suffix_ind items
           (fun suffix s =>
              for_each (fun p => deps_body process_deps p1 (fst p) (snd p))
                suffix s =
              for_each (fun p => deps_body process_deps p2 (fst p) (snd p))
                suffix s)).
  - reflexivity.
  - intros name info rest s Hin IH. rewrite !for_each_cons. cbn [fst snd].
    destruct (deps_body_shape name info s)
      as [(res & s1 & out & Hbody & _)
         | (fields & s1 & r & -> & Hbody & _)].
    + rewrite !Hbody. destruct res as [[] | e]; [ apply IH | reflexivity ].
    + rewrite !Hbody. unfold descend.
      destruct (dict_get "dependencies" fields) as [nested | ] eqn:Hdeps.
      * rewrite (IHnested nested) with (p2 := (p2 ++ name ++ "/")).
        2:{ now exists items, name, fields. }
        destruct (process_deps nested _ s1) as [[[] | e] s2];
          [ apply IH | reflexivity ].
      * apply IH.
Qed.

(** The tree traversal prints warnings and nothing else. *)
Lemma process_deps_stdout deps :
  forall prefix s res s1,
    process_deps deps prefix s = (res, s1) ->
    exists out,
      stdout s1 = (stdout s ++ out)%list /\ forallb is_warning out = true.
Proof.
  induction deps as [deps IHnested] using nested_ind.
  intros prefix.
  destruct deps as [ | | | | | | items ];
    try (intros s0 res0 s0'; cbn [process_deps]; unfold raise;
         intros [= <- <-]; exists []; now rewrite app_nil_r).
  rewrite process_deps_items.
  intros s. revert s.
  apply (process_deps_suffix_ind items
           (fun suffix s =>
              forall res s1,
                for_each (fun p => deps_body process_deps prefix (fst p) (snd p))
                  suffix s = (res, s1) ->
                exists out,
                  stdout s1 = (stdout s ++ out)%list /\
                  forallb is_warning out = true)).
  - intros s res s1 [= <- <-]. exists []. now rewrite app_nil_r.
  - intros name info rest s Hin IH res s2. rewrite for_each_cons.
    cbn [fst snd].
    assert (Hgo : forall (r0 : result unit) s0 out0,
               stdout s0 = (stdout s ++ out0)%list ->
               forallb is_warning out0 = true ->
               match r0 with
               | Ok _ =>
                   for_each
                     (fun p => deps_body process_deps prefix (fst p) (snd p))
                     rest s0
               | Raise e => (Raise e, s0)
               end = (res, s2) ->
               exists out,
                 stdout s2 = (stdout s ++ out)%list /\
                 forallb is_warning out = true).
    { intros r0 s0 out0 Ho0 Hw0. destruct r0 as [[] | e].
      - intros Hrest. destruct (IH _ _ _ Hrest) as (out1 & Ho1 & Hw1).
        exists (out0 ++ out1)%list.
        now rewrite Ho1, Ho0, app_assoc, forallb_app, Hw0, Hw1.
      - intros [= <- <-]. now exists out0. }
    destruct (deps_body_shape name info s)
      as [(r0 & s0 & out0 & Hbody & _ & Ho0 & Hw0 & _)
         | (fields & s0 & r & -> & Hbody & _ & Ho0)].
    + rewrite Hbody. now apply Hgo with out0.
    + rewrite Hbody. unfold descend.
      destruct (dict_get "dependencies" fields) as [nested | ] eqn:Hdeps.
      * destruct (process_deps nested _ s0) as [r1 s1] eqn:Hnested.
        apply IHnested in Hnested; [ | now exists items, name, fields ].
        destruct Hnested as (out1 & Ho1 & Hw1).
        apply Hgo with out1; [ now rewrite Ho1, Ho0 | exact Hw1 ].
      * apply (Hgo (Ok tt) s0 []); [ now rewrite app_nil_r | reflexivity ].
Qed.

Lemma guarded_tree_nested fields nested :
  match dict_get_with guarded_tree "dependencies" fields with
  | Some b => b
  | None => true
  end = true ->
  dict_get "dependencies" fields = Some nested ->
  guarded_tree nested = true.
Proof.
  rewrite dict_get_with_map. intros H Hdeps. now rewrite Hdeps in H.
Qed.

(** X11: On a standard output that takes every warning, no answer of the
    network makes the tree traversal fail either.  On a mapping whose
    entries, when they are mappings with a [resolved] key, have a string
    under it, an integrity value that is absent or a string and, under
    [dependencies], if anything, a mapping of the same kind,
    [process_deps] returns normally from every state. *)
Theorem tree_traversal_survives_the_network deps :
  (forall url e, print_warning url e = Ok tt) ->
  guarded_tree deps = true ->
  forall prefix s, exists s1, process_deps deps prefix s = (Ok tt, s1).
Proof.
  intros Hprint.
  induction deps as [deps IHnested] using nested_ind.
  destruct deps as [ | | | | | | items ]; try discriminate.
  cbn [guarded_tree]. intros Hall prefix.
  rewrite forallb_forall in Hall.
  rewrite process_deps_items.
  apply (process_deps_suffix_ind items
           (fun suffix s =>
              exists s1,
                for_each (fun p => deps_body process_deps prefix (fst p) (snd p))
                  suffix s = (Ok tt, s1))).
  - intros s. now exists s.
  - intros name info rest s Hin IH. rewrite for_each_cons. cbn [fst snd].
    specialize (Hall _ Hin). cbn [snd] in Hall.
    destruct (deps_body_shape name info s)
      as [(res & s1 & out & Hbody & _ & _ & _
           & [-> | [Hbad | (url & e & x & Hraise)]])
         | (fields & s1 & r & -> & Hbody & _)].
    + rewrite Hbody. apply IH.
    + exfalso. destruct Hbad as (fields & url & -> & Hres & Hbad).
      rewrite Hres in Hall.
      apply andb_true_iff in Hall as [Hall _].
      apply andb_true_iff in Hall as [Hstr Hint].
      destruct Hbad as [Hbad | Hbad].
      * rewrite Hbad in Hint. discriminate.
      * destruct url; try discriminate. now destruct (Hbad s0).
    + exfalso. rewrite Hprint in Hraise. discriminate.
    + rewrite Hbody. unfold descend.
      destruct (dict_get "dependencies" fields) as [nested | ] eqn:Hdeps;
        [ | apply IH ].
      destruct (dict_get "resolved" fields) as [url | ] eqn:Hres.
      * apply andb_true_iff in Hall as [_ Hnested].
        destruct (IHnested nested) with (prefix := (prefix ++ name ++ "/"))
                                        (s := s1) as (s2 & ->).
        -- now exists items, name, fields.
        -- now apply guarded_tree_nested with fields.
        -- apply IH.
      * (* without [resolved] the iteration does not reach the descent *)
        specialize (Hbody process_deps prefix).
        rewrite deps_body_unresolved in Hbody by exact Hres.
        unfold descend in Hbody. rewrite Hdeps in Hbody.
        destruct (process_deps nested (prefix ++ name ++ "/") s1)
          as [r2 s2] eqn:Hrun.
        injection Hbody as <- <-. apply IH.
Qed.

(** *** What a run leaves behind *)

Lemma process_package_lock_stdout data s res s1 :
  process_package_lock data s = (res, s1) ->
  exists out,
    stdout s1 = (stdout s ++ out)%list /\ forallb is_warning out = true.
Proof.
  assert (Hsame : forall (r : result (list dict)) s0,
             stdout s0 = stdout s ->
             (r, s0) = (res, s1) ->
             exists out,
               stdout s1 = (stdout s ++ out)%list /\
               forallb is_warning out = true).
  { intros r s0 Hs0 [= <- <-]. exists []. now rewrite app_nil_r. }
  destruct data as [ | | | | str | l | d ];
    try (apply (Hsame (Raise TypeError)); reflexivity).
  - unfold process_package_lock, bind, lift, ret, py_in, py_getitem.
    destruct (str_contains "packages" str); [ now apply Hsame | ].
    destruct (str_contains "dependencies" str); now apply Hsame.
  - unfold process_package_lock, bind, lift, ret, py_in, py_getitem.
    match goal with
    | |- context [existsb ?f l] => destruct (existsb f l)
    end; [ now apply Hsame | ].
    match goal with
    | |- context [existsb ?f l] => destruct (existsb f l)
    end; now apply Hsame.
  - destruct (dict_get "packages" d) as [v | ] eqn:Hp.
    + destruct v as [ | | | | | | items ];
        try (unfold process_package_lock, bind, lift, ret, py_in, dict_mem,
               py_getitem, py_items; rewrite Hp; now apply Hsame).
      rewrite (process_package_lock_flat _ _ _ Hp).
      destruct (process_packages items _) as [r0 s0] eqn:Hrun.
      destruct (process_packages_effects _ _ _ _ Hrun)
        as (new & out & _ & Ho & _ & Hw).
      cbn [stdout] in Ho.
      destruct r0 as [[] | e]; intros [= <- <-]; now exists out.
    + destruct (dict_get "dependencies" d) as [deps | ] eqn:Hd.
      * rewrite (process_package_lock_tree _ _ _ Hp Hd).
        destruct (process_deps deps "" _) as [r0 s0] eqn:Hrun.
        destruct (process_deps_stdout _ _ _ _ _ Hrun) as (out & Ho & Hw).
        cbn [stdout] in Ho.
        destruct r0 as [[] | e]; intros [= <- <-]; now exists out.
      * unfold process_package_lock, bind, lift, ret, py_in, dict_mem.
        rewrite Hp, Hd. now apply Hsame.
Qed.

(** *** The characters handed to the decoder *)

Lemma str_length_app s t :
  String.length (s ++ t) = (String.length s + String.length t)%nat.
Proof.
  induction s as [ | c s IH ]; [ reflexivity | ].
  cbn. now rewrite IH.
Qed.

Lemma str_length_repeat c n : String.length (str_repeat c n) = n.
Proof.
  induction n as [ | n IH ]; [ reflexivity | ]. cbn. now rewrite IH.
Qed.

Lemma str_forallb_app p s t :
  str_forallb p (s ++ t) = str_forallb p s && str_forallb p t.
Proof.
  induction s as [ | c s IH ]; [ reflexivity | ].
  cbn. now rewrite IH, andb_assoc.
Qed.

Lemma str_forallb_repeat p c n :
  p c = true -> str_forallb p (str_repeat c n) = true.
Proof.
  intros Hc. induction n as [ | n IH ]; [ reflexivity | ].
  cbn. now rewrite Hc, IH.
Qed.

Lemma str_forallb_impl (p q : ascii -> bool) s :
  (forall c, p c = true -> q c = true) ->
  str_forallb p s = true -> str_forallb q s = true.
Proof.
  intros Himpl. induction s as [ | c s IH ]; [ reflexivity | ].
  cbn. intros H. apply andb_true_iff in H as [Hc Hs].
  now rewrite (Himpl _ Hc), IH.
Qed.

Lemma str_forallb_remove p x s :
  str_forallb p s = true -> str_forallb p (str_remove x s) = true.
Proof.
  induction s as [ | c s IH ]; [ reflexivity | ].
  cbn. intros H. apply andb_true_iff in H as [Hc Hs].
  destruct (Ascii.eqb c x); [ now apply IH | ].
  cbn. now rewrite Hc, IH.
Qed.

Lemma str_remove_removes x s :
  str_forallb (fun c => negb (Ascii.eqb c x)) (str_remove x s) = true.
Proof.
  induction s as [ | c s IH ]; [ reflexivity | ].
  cbn. destruct (Ascii.eqb c x) eqn:E; [ exact IH | ].
  cbn. now rewrite E, IH.
Qed.

Lemma str_replace_removes x y s :
  Ascii.eqb y x = false ->
  str_forallb (fun c => negb (Ascii.eqb c x)) (str_replace x y s) = true.
Proof.
  intros Hxy. induction s as [ | c s IH ]; [ reflexivity | ].
  cbn. destruct (Ascii.eqb c x) eqn:E; now rewrite ?Hxy, ?E, IH.
Qed.

Lemma str_replace_keeps p x y s :
  p y = true ->
  str_forallb p s = true -> str_forallb p (str_replace x y s) = true.
Proof.
  intros Hy. induction s as [ | c s IH ]; [ reflexivity | ].
  cbn. intros H. apply andb_true_iff in H as [Hc Hs].
  destruct (Ascii.eqb c x); now rewrite ?Hy, ?Hc, IH.
Qed.

Lemma str_remove_absent x s :
  str_forallb (fun c => negb (Ascii.eqb c x)) s = true ->
  str_remove x s = s.
Proof.
  induction s as [ | c s IH ]; [ reflexivity | ].
  cbn. intros H. apply andb_true_iff in H as [Hc Hs].
  apply negb_true_iff in Hc. now rewrite Hc, IH.
Qed.

Lemma str_replace_absent x y s :
  str_forallb (fun c => negb (Ascii.eqb c x)) s = true ->
  str_replace x y s = s.
Proof.
  induction s as [ | c s IH ]; [ reflexivity | ].
  cbn. intros H. apply andb_true_iff in H as [Hc Hs].
  apply negb_true_iff in Hc. now rewrite Hc, IH.
Qed.

Lemma str_remove_app x s t :
  str_remove x (s ++ t) = str_remove x s ++ str_remove x t.
Proof.
  induction s as [ | c s IH ]; [ reflexivity | ].
  cbn. destruct (Ascii.eqb c x); cbn; now rewrite IH.
Qed.

Lemma str_remove_repeat x n : str_remove x (str_repeat x n) = "".
Proof.
  induction n as [ | n IH ]; [ reflexivity | ].
  cbn. now rewrite Ascii.eqb_refl.
Qed.

Lemma str_app_nil s : s ++ "" = s.
Proof.
  induction s as [ | c s IH ]; [ reflexivity | ]. cbn. now rewrite IH.
Qed.

(** X13: Whatever the integrity string, what lines 42-43 hand to the decoder
    has a length that is a multiple of four and holds neither of the two
    alphabet characters "/" and "+": these never reach the decoder. *)
Theorem prepared_string_has_no_slash_or_plus integrity :
  (String.length (prepare_b64 integrity) mod 4 = 0)%nat /\
  plain_b64 (prepare_b64 integrity) = true.
Proof.
  unfold prepare_b64, ljust.
  set (t := str_remove "=" (str_replace "+" "-"
                              (str_remove "/" (str_drop 7 integrity)))).
  split.
  - rewrite str_length_app, str_length_repeat.
    assert (H : (String.length t <= (String.length t + 3) / 4 * 4)%nat).
    { pose proof (Nat.div_mod_eq (String.length t + 3) 4) as Hd.
      pose proof (Nat.mod_upper_bound (String.length t + 3) 4) as Hm.
      lia. }
    replace (String.length t +
             ((String.length t + 3) / 4 * 4 - String.length t))%nat
      with ((String.length t + 3) / 4 * 4)%nat by lia.
    apply Nat.Div0.mod_mul.
  - unfold plain_b64. rewrite str_forallb_app. apply andb_true_iff. split.
    + assert (Hslash : str_forallb (fun c => negb (Ascii.eqb c "/")) t = true).
      { unfold t. apply str_forallb_remove, str_replace_keeps;
          [ reflexivity | apply str_remove_removes ]. }
      assert (Hplus : str_forallb (fun c => negb (Ascii.eqb c "+")) t = true).
      { unfold t. apply str_forallb_remove. now apply str_replace_removes. }
      clear -Hslash Hplus. induction t as [ | c t IH ]; [ reflexivity | ].
      cbn in *. apply andb_true_iff in Hslash as [H1 H2].
      apply andb_true_iff in Hplus as [H3 H4].
      now rewrite H1, H3, IH.
    + now apply str_forallb_repeat.
Qed.

Lemma prepare_b64_plain data k :
  plain_b64 data = true ->
  unpadded data = true ->
  (k < 4)%nat ->
  ((String.length data + k) mod 4 = 0)%nat ->
  prepare_b64 ("sha512-" ++ data ++ str_repeat "=" k) =
  data ++ str_repeat "=" k.
Proof.
  intros Hplain Hunpadded Hk Hmod.
  unfold prepare_b64. cbn [append str_drop].
  assert (Hslash : str_forallb (fun c => negb (Ascii.eqb c "/"))
                     (data ++ str_repeat "=" k) = true).
  { rewrite str_forallb_app. apply andb_true_iff. split.
    - apply (str_forallb_impl _ _ _ (fun c H => proj1 (andb_prop _ _ H))
               Hplain).
    - now apply str_forallb_repeat. }
  assert (Hplus : str_forallb (fun c => negb (Ascii.eqb c "+"))
                    (data ++ str_repeat "=" k) = true).
  { rewrite str_forallb_app. apply andb_true_iff. split.
    - apply (str_forallb_impl _ _ _ (fun c H => proj2 (andb_prop _ _ H))
               Hplain).
    - now apply str_forallb_repeat. }
  rewrite (str_remove_absent _ _ Hslash), (str_replace_absent _ _ _ Hplus).
  rewrite str_remove_app, str_remove_repeat, str_app_nil.
  rewrite (str_remove_absent _ _ Hunpadded).
  unfold ljust. f_equal. f_equal.
  pose proof (Nat.div_mod_eq (String.length data + k) 4) as Hd.
  rewrite Hmod in Hd.
  assert (Hq : ((String.length data + 3) / 4 =
                (String.length data + k) / 4)%nat).
  { symmetry. apply Nat.div_unique with (r := (3 - k)%nat); lia. }
  lia.
Qed.

Lemma startswith_app p s : startswith (p ++ s) p = true.
Proof.
  unfold startswith. induction p as [ | c p IH ].
  - now destruct s.
  - cbn. now destruct (Ascii.ascii_dec c c).
Qed.

Lemma package_body_inline name fields url integrity b d s :
  name <> "" ->
  dict_get "resolved" fields = Some url ->
  truthy url = true ->
  integrity_of fields = Ok integrity ->
  startswith integrity "sha512-" = true ->
  b64decode (prepare_b64 integrity) = Ok b ->
  dest_name name url = Ok d ->
  package_body name (JDict fields) s =
  (Ok tt,
   mkState (world s) (stdout s) (sources s ++ [source_record url (hex b) d])).
Proof.
  intros Hname Hres Htruthy Hint Hstart Hdec Hdest.
  apply String.eqb_neq in Hname.
  unfold package_body. rewrite Hname, Hres, Htruthy. cbn [negb].
  unfold bind, lift, ret, append_source.
  rewrite Hint, Hstart, Hdec, Hdest. reflexivity.
Qed.

(** X14: An integrity string without "/" and "+" that is padded as base64
    requires is decoded as it stands: the decoder receives exactly the
    text after the tag, and the flat traversal appends the record whose
    hash is the hexadecimal form of the bytes that text decodes to. *)
Theorem plain_integrity_is_decoded_as_it_stands
    name fields url data k b d s :
  name <> "" ->
  dict_get "resolved" fields = Some url ->
  truthy url = true ->
  integrity_of fields = Ok ("sha512-" ++ data ++ str_repeat "=" k) ->
  plain_b64 data = true ->
  unpadded data = true ->
  (k < 4)%nat ->
  ((String.length data + k) mod 4 = 0)%nat ->
  b64decode (data ++ str_repeat "=" k) = Ok b ->
  dest_name name url = Ok d ->
  prepare_b64 ("sha512-" ++ data ++ str_repeat "=" k) =
    data ++ str_repeat "=" k /\
  package_body name (JDict fields) s =
  (Ok tt,
   mkState (world s) (stdout s) (sources s ++ [source_record url (hex b) d])).
Proof.
  intros Hname Hres Htruthy Hint Hplain Hunpadded Hk Hmod Hdec Hdest.
  pose proof (prepare_b64_plain _ _ Hplain Hunpadded Hk Hmod) as Hprep.
  split; [ exact Hprep | ].
  apply package_body_inline with ("sha512-" ++ data ++ str_repeat "=" k);
    try assumption.
  - apply startswith_app.
  - now rewrite Hprep.
Qed.

(** *** Filenames of the flat form *)

Lemma startswith_split p : forall s,
  startswith s p = true -> s = p ++ str_drop (String.length p) s.
Proof.
  unfold startswith.
  induction p as [ | c p IH ]; intros s; [ reflexivity | ].
  destruct s as [ | c' s ]; [ discriminate | ].
  cbn. destruct (Ascii.ascii_dec c c') as [-> | Hne]; [ | discriminate ].
  intros H. now rewrite <- (IH _ H).
Qed.

(** X15: Two keys under "node_modules/" that get the same filename are the
    same key: among the entries with the prefix no record can take the
    place of another in the cache, whatever their URLs. *)
Theorem prefixed_keys_get_distinct_filenames name1 name2 url1 url2 d :
  startswith name1 "node_modules/" = true ->
  startswith name2 "node_modules/" = true ->
  dest_name name1 url1 = Ok d ->
  dest_name name2 url2 = Ok d ->
  name1 = name2.
Proof.
  intros H1 H2 Hd1 Hd2. unfold dest_name in Hd1, Hd2.
  rewrite H1 in Hd1. rewrite H2 in Hd2.
  assert (Heq : str_drop 13 name1 = str_drop 13 name2) by congruence.
  rewrite (startswith_split _ _ H1), (startswith_split _ _ H2).
  change (String.length "node_modules/") with 13%nat.
  now rewrite Heq.
Qed.

(** *** Trees that need no request *)

Lemma process_deps_offline deps :
  offline_tree deps = true ->
  exists recs,
    forall prefix s,
      process_deps deps prefix s =
      (Ok tt, mkState (world s) (stdout s) (sources s ++ recs)%list).
Proof.
  induction deps as [deps IHnested] using nested_ind.
  destruct deps as [ | | | | | | items ]; try discriminate.
  cbn [offline_tree]. intros Hall.
  rewrite forallb_forall in Hall.
  assert (Hloop : forall suffix, incl suffix items ->
             exists recs,
               forall prefix s,
                 for_each
                   (fun p => deps_body process_deps prefix (fst p) (snd p))
                   suffix s =
                 (Ok tt, mkState (world s) (stdout s) (sources s ++ recs)%list)).
  { induction suffix as [ | [name info] rest IH ]; intros Hincl.
    - exists []. intros prefix s. cbn. now rewrite state_eta.
    - destruct IH as (recs1 & Hrest).
      { intros x Hx. apply Hincl. now right. }
      assert (Hin : In (name, info) items) by (apply Hincl; now left).
      specialize (Hall _ Hin). cbn [snd] in Hall.
      assert (Hskip : (forall recurse prefix s,
                          deps_body recurse prefix name info s = (Ok tt, s)) ->
                      exists recs,
                        forall prefix s,
                          for_each
                            (fun p =>
                               deps_body process_deps prefix (fst p) (snd p))
                            ((name, info) :: rest) s =
                          (Ok tt,
                           mkState (world s) (stdout s)
                             (sources s ++ recs)%list)).
      { intros Hbody. exists recs1. intros prefix s.
        rewrite for_each_cons. cbn [fst snd]. now rewrite Hbody, Hrest. }
      destruct info as [ | | | | | | fields ];
        try (apply Hskip; intros; apply deps_body_not_dict;
             intros f; discriminate).
      destruct (dict_get "resolved" fields) as [url | ] eqn:Hres;
        [ | apply Hskip; intros; now apply deps_body_unresolved ].
      apply andb_true_iff in Hall as [Hall Hnested].
      apply andb_true_iff in Hall as [Hstr Hint].
      destruct url as [ | | | | u | | ]; try discriminate.
      destruct (integrity_of fields) as [integrity | e] eqn:Hi;
        [ | discriminate ].
      destruct (dict_get "dependencies" fields) as [nested | ] eqn:Hdeps.
      + rewrite dict_get_with_map, Hdeps in Hnested. cbn in Hnested.
        destruct (IHnested nested) as (recs0 & Hdown);
          [ now exists items, name, fields | exact Hnested | ].
        exists (source_record (JStr u) (str_drop 7 integrity) (last_segment u)
                  :: recs0 ++ recs1)%list.
        intros prefix s. rewrite for_each_cons. cbn [fst snd].
        rewrite (deps_body_inline _ _ _ _ _ _ _ Hres Hi Hint).
        unfold descend. rewrite Hdeps, Hdown, Hrest.
        cbn [world stdout sources].
        now rewrite <- !app_assoc.
      + exists (source_record (JStr u) (str_drop 7 integrity) (last_segment u)
                  :: recs1).
        intros prefix s. rewrite for_each_cons. cbn [fst snd].
        rewrite (deps_body_inline _ _ _ _ _ _ _ Hres Hi Hint).
        unfold descend. rewrite Hdeps. unfold ret. rewrite Hrest.
        cbn [world stdout sources].
        now rewrite <- !app_assoc. }
  destruct (Hloop items (incl_refl _)) as (recs & Hrecs).
  exists recs. intros prefix s. now rewrite process_deps_items.
Qed.

(** X16: A legacy lockfile whose [dependencies] value is a mapping in which
    every entry that is a mapping with a [resolved] key has a string
    under it, a string integrity value that carries the [sha512-] tag
    and, under [dependencies], if anything, a mapping of the same kind,
    is processed without the network: whatever the state of the world,
    the run prints no warning, exits with status 0 and writes one and the
    same list. *)
Theorem offline_tree_is_reproducible d deps :
  dict_get "packages" d = None ->
  dict_get "dependencies" d = Some deps ->
  offline_tree deps = true ->
  exists recs,
    forall w,
      main (JDict d) w =
      mkOutcome 0 (Some recs) [Processing; Generated (List.length recs)].
Proof.
  intros Hp Hd Hoff.
  destruct (process_deps_offline _ Hoff) as (recs & Hrun).
  exists recs. intros w.
  rewrite main_eq, (process_package_lock_tree _ _ _ Hp Hd), Hrun.
  reflexivity.
Qed.

(** X17: A [packages] value that is not a mapping, and, without [packages], a
    [dependencies] value that is not a mapping, has no [items]: the call
    raises [AttributeError] before any entry is looked at, and the run
    ends with status 1 and nothing written. *)
Theorem non_mapping_section_aborts_the_run d v w :
  (forall items, v <> JDict items) ->
  dict_get "packages" d = Some v \/
  dict_get "packages" d = None /\ dict_get "dependencies" d = Some v ->
  (forall s,
      process_package_lock (JDict d) s =
      (Raise AttributeError, mkState (world s) (stdout s) [])) /\
  main (JDict d) w = mkOutcome 1 None [Processing].
Proof.
  intros Hnot Hkey.
  assert (Hlock : forall s,
             process_package_lock (JDict d) s =
             (Raise AttributeError, mkState (world s) (stdout s) [])).
  { intros s.
    unfold process_package_lock, bind, lift, ret, py_in, dict_mem,
      py_getitem, py_items.
    destruct Hkey as [Hp | [Hp Hd]].
    - rewrite Hp. destruct v; try reflexivity. now destruct (Hnot items).
    - rewrite Hp, Hd. destruct v; try reflexivity. now destruct (Hnot items). }
  split; [ exact Hlock | ].
  now rewrite main_eq, Hlock.
Qed.

End Properties.

(** ** The claims on the example lockfiles *)

Import Examples.
#[local] Existing Instance Fixture.env.

(** C1: on the integrity string of a known digest the flat traversal
    does not emit the digest.  The base64 form of the SHA-512 digest of
    the empty file contains "/" and "+"; decoded as it stands it gives the
    digest, but line 42 deletes every "/" and turns every "+" into "-",
    which the decoder skips, so the record carries 62 shifted bytes
    instead of the 64 of the digest. *)
Theorem integrity_decoding_loses_slash_and_plus :
  match b64decode (str_drop 7 integrity_empty) with
  | Ok b => hex b
  | Raise _ => ""
  end = Fixture.sha512_empty /\
  Fixture.run_lock lock_empty_digest =
    Ok [source_record (JStr foo_url) mangled_empty "foo"] /\
  mangled_empty <> Fixture.sha512_empty /\
  String.length mangled_empty = 124%nat.
Proof.
  repeat split; try (vm_compute; reflexivity).
  intros H. discriminate H.
Qed.

(** C3: the tree traversal does not decode.  For one and the same entry
    the flat traversal emits the hexadecimal digest and the tree traversal
    emits the base64 text that follows the tag. *)
Theorem tree_form_emits_the_undecoded_integrity :
  Fixture.run_lock lock_zero_flat =
    Ok [source_record (JStr foo_url) hex_zero "foo"] /\
  Fixture.run_lock lock_zero_tree =
    Ok [source_record (JStr foo_url) (str_drop 7 integrity_zero)
          "foo-1.0.tgz"] /\
  str_drop 7 integrity_zero <> hex_zero.
Proof.
  repeat split; try (vm_compute; reflexivity).
  intros H. discriminate H.
Qed.

(** C6: a failed fetch drops more than its entry, and can end the run.
    In the tree form the [continue] of line 83 leaves the loop body
    before the descent of lines 93-95: with the parent [a], whose fetch
    fails, its dependency [b] is dropped too, although its mapping walked
    on its own emits it; only the sibling [d] is in the output.  And the
    warning is printed inside the [except] block: on a standard output
    that cannot take the URL the [print] raises, and the run ends with
    status 1 and writes nothing, the valid entry that follows
    included. *)
Theorem failed_fetch_drops_more_than_its_entry :
  Fixture.run_main lock_failed_parent =
    mkOutcome 0
      (Some [source_record (JStr "https://x/d-1.0.tgz") "QUJD" "d-1.0.tgz"])
      [Processing;
       Warning (JStr "https://x/gone-1.0.tgz") "HTTP Error 404: Not Found";
       Generated 1] /\
  Fixture.run_lock (tree_lock [("b", entry "https://x/b-1.0.tgz" "sha512-QUJD")]) =
    Ok [source_record (JStr "https://x/b-1.0.tgz") "QUJD" "b-1.0.tgz"] /\
  @main Fixture.ascii_stdout lock_unprintable
    (O : @World Fixture.ascii_stdout) =
    mkOutcome 1 None [Processing].
Proof. repeat split; vm_compute; reflexivity. Qed.

(** C9: the tree traversal emits a record for an entry without a URL.
    Line 72 only asks for the key: for an entry whose resolved value is
    the empty string it appends a record with the URL "" and the filename
    "npm-cache/"; line 34 of the flat traversal leaves the same entry
    out. *)
Theorem tree_form_emits_an_entry_with_an_empty_url :
  Fixture.run_lock lock_void_url_tree =
    Ok [source_record (JStr "") "QUJD" ""] /\
  Fixture.run_lock lock_void_url_flat = Ok [].
Proof. split; vm_compute; reflexivity. Qed.



(** Against C4 as stated.  The dependency [b] is emitted when its mapping
    is walked, and is not
    when the mapping hangs under a record without a resolved URL, or under
    a record whose digest could not be fetched. *)
Lemma nested_dependencies_of_a_dropped_record_are_not_walked :
  Fixture.run_lock (tree_lock [("b", entry "https://x/b-1.0.tgz" "sha512-QUJD")]) =
    Ok [source_record (JStr "https://x/b-1.0.tgz") "QUJD" "b-1.0.tgz"] /\
  Fixture.run_lock lock_parent_unresolved = Ok [] /\
  Fixture.run_lock
    (tree_lock [("a", JDict [("resolved", JStr "https://x/gone-1.0.tgz");
                             ("dependencies", nested_b)])]) = Ok [].
Proof. repeat split; vm_compute; reflexivity. Qed.

Lemma nested_dependencies_follow_an_emitted_record_witness :
  process_deps (JDict (("a", JDict parent_a) :: siblings)) "" start =
  match process_deps nested_b "a/"
          (mkState (O : @World Fixture.env) []
             [source_record (JStr "https://x/a-1.0.tgz") "QUJD" "a-1.0.tgz"])
  with
  | (Ok _, s1) => process_deps (JDict siblings) "" s1
  | (Raise e, s1) => (Raise e, s1)
  end.
Proof.
  destruct (@nested_dependencies_follow_an_emitted_record Fixture.env
              "a" parent_a siblings "" start) as (_ & Hinline & _).
  apply (Hinline "https://x/a-1.0.tgz" "sha512-QUJD" nested_b);
    reflexivity.
Defined.





(** C8: the tree traversal does not take the filename from the path of
    the URL.  Line 89 splits the URL string itself, so that for a URL
    with a query the filename is the text after the last "/" of the
    query; line 63 of the flat traversal splits the path of the URL and
    emits its last segment for the same entry. *)
Lemma tree_filename_is_cut_from_the_whole_url :
  Fixture.run_lock lock_query_tree =
    Ok [source_record (JStr query_url) "QUJD" "2"] /\
  Fixture.run_lock lock_query_flat =
    Ok [source_record (JStr query_url) "414243" "a.tgz"] /\
  urlparse_path (JStr query_url) = Ok "/a.tgz" /\
  last_segment "/a.tgz" = "a.tgz" /\
  last_segment query_url = "2".
Proof. repeat split; vm_compute; reflexivity. Qed.

Lemma destination_filename_witness :
  exists outs,
    [source_record (JStr query_url) "414243" "a.tgz"] = List.concat outs /\
    Forall2
      (fun p out =>
         out = [] \/
         exists fields url h dst,
           snd p = JDict fields /\ fst p <> "" /\
           dict_get "resolved" fields = Some url /\
           truthy url = true /\
           (decoded_hash fields h \/ fetched_hash fields url h) /\
           out = [source_record url h dst] /\
           (startswith (fst p) "node_modules/" = true ->
            dst = str_drop 13 (fst p)) /\
           (startswith (fst p) "node_modules/" = false ->
            exists path,
              urlparse_path url = Ok path /\
              dst = last_segment path))
      (("", JDict [("name", JStr "app")]) :: query_items) outs.
Proof.
  apply (proj1 (@destination_filename Fixture.env)
           (flat_fields query_items) _ start _
           (mkState (O : @World Fixture.env) []
              [source_record (JStr query_url) "414243" "a.tgz"])).
  - reflexivity.
  - vm_compute. reflexivity.
Defined.

Lemma fetched_hash_and_failed_fetch_witness :
  process_packages
    [("node_modules/gone", JDict (unverified "https://x/gone-1.0.tgz"));
     ("node_modules/foo", JDict (unverified foo_url))] start =
  process_packages [("node_modules/foo", JDict (unverified foo_url))]
    (mkState (1%nat : @World Fixture.env)
       [Warning (JStr "https://x/gone-1.0.tgz") "HTTP Error 404: Not Found"]
       []) /\
  process_packages [("node_modules/foo", JDict (unverified foo_url))] start =
  process_packages []
    (mkState (1%nat : @World Fixture.env) []
       [source_record (JStr foo_url) Fixture.sha512_foo "foo"]).
Proof.
  split.
  - pose proof (@fetched_hash_and_failed_fetch Fixture.env
                  "node_modules/gone" (unverified "https://x/gone-1.0.tgz")
                  (JStr "https://x/gone-1.0.tgz") ""
                  [("node_modules/foo", JDict (unverified foo_url))] start
                  ltac:(discriminate) eq_refl eq_refl eq_refl eq_refl)
      as [_ Hfailed].
    exact (proj2 (Hfailed "HTTP Error 404: Not Found" 1%nat eq_refl eq_refl)).
  - pose proof (@fetched_hash_and_failed_fetch Fixture.env
                  "node_modules/foo" (unverified foo_url)
                  (JStr foo_url) "" [] start
                  ltac:(discriminate) eq_refl eq_refl eq_refl eq_refl)
      as [Hfetched _].
    exact (Hfetched [102; 111; 111] 1%nat "foo" eq_refl
             ltac:(discriminate) eq_refl).
Defined.

Lemma no_record_for_root_or_unresolved_entry_witness :
  process_packages
    ([("node_modules/foo", entry foo_url "sha512-QUJD")] ++
     ("node_modules/local", JDict [("link", JBool true)]) ::
     [("node_modules/baz", entry "https://x/baz-1.0.tgz" "sha512-QUJD")])%list
    start =
  process_packages
    ([("node_modules/foo", entry foo_url "sha512-QUJD")] ++
     [("node_modules/baz", entry "https://x/baz-1.0.tgz" "sha512-QUJD")])%list
    start.
Proof.
  destruct (@no_record_for_root_or_unresolved_entry Fixture.env)
    as (_ & Hflat & _).
  apply Hflat. reflexivity.
Defined.

Lemma non_mapping_dependency_is_skipped_witness :
  deps_body process_deps "" "c" (JInt 3) start = (Ok tt, start) /\
  process_deps
    (JDict ([("a", JDict parent_a)] ++ ("c", JInt 3) ::
            [("d", entry "https://x/d-1.0.tgz" "sha512-QUJD")])%list)
    "" start =
  process_deps
    (JDict ([("a", JDict parent_a)] ++
            [("d", entry "https://x/d-1.0.tgz" "sha512-QUJD")])%list)
    "" start.
Proof.
  apply (@non_mapping_dependency_is_skipped Fixture.env).
  intros fields H. discriminate H.
Defined.

(** ** The further properties on the example lockfiles *)

Lemma flat_run_accounts_for_entries_witness :
  exists out,
    stdout (mkState (2%nat : @World Fixture.env)
              [Warning (JStr "https://x/gone-1.0.tgz")
                 "HTTP Error 404: Not Found"]
              [source_record (JStr foo_url) Fixture.sha512_foo "foo"]) =
      (stdout start ++ out)%list /\
    forallb is_warning out = true /\
    (List.length [source_record (JStr foo_url) Fixture.sha512_foo "foo"] +
     List.length out <=
     List.length
       (filter resolvable (("", JDict [("name", JStr "app")]) :: fetch_items)))%nat.
Proof.
  apply (@flat_run_accounts_for_entries Fixture.env (flat_fields fetch_items)).
  - reflexivity.
  - vm_compute. reflexivity.
Defined.

Lemma flat_non_mapping_entry_aborts_the_run_witness :
  exit_code (Fixture.run_main (flat_lock [("node_modules/x", JStr "1.0.0")])) = 1 /\
  output_file (Fixture.run_main (flat_lock [("node_modules/x", JStr "1.0.0")])) =
    None.
Proof.
  apply (@flat_non_mapping_entry_aborts_the_run Fixture.env
           (flat_fields [("node_modules/x", JStr "1.0.0")])
           (("", JDict [("name", JStr "app")]) ::
            [("node_modules/x", JStr "1.0.0")])
           "node_modules/x" (JStr "1.0.0") (O : @World Fixture.env)).
  - reflexivity.
  - right. left. reflexivity.
  - discriminate.
  - intros fields H. discriminate H.
Defined.

Lemma non_string_integrity_raises_witness :
  deps_body process_deps "" "foo"
    (JDict [("resolved", JStr foo_url); ("integrity", JNull)]) start =
  (Raise AttributeError, start).
Proof.
  apply (@non_string_integrity_raises Fixture.env "foo"
           [("resolved", JStr foo_url); ("integrity", JNull)]
           (JStr foo_url) JNull start).
  - reflexivity.
  - reflexivity.
  - intros i H. discriminate H.
Defined.

Lemma flat_entry_with_false_url_is_skipped_witness :
  process_packages
    ([("node_modules/foo", entry foo_url "sha512-QUJD")] ++
     ("node_modules/local", JDict [("resolved", JStr "")]) ::
     [("node_modules/baz", entry "https://x/baz-1.0.tgz" "sha512-QUJD")])%list
    start =
  process_packages
    ([("node_modules/foo", entry foo_url "sha512-QUJD")] ++
     [("node_modules/baz", entry "https://x/baz-1.0.tgz" "sha512-QUJD")])%list
    start.
Proof.
  apply (@flat_entry_with_false_url_is_skipped Fixture.env) with (JStr "");
    reflexivity.
Defined.

Lemma offline_lockfile_is_reproducible_witness :
  exists recs,
    List.length recs =
      List.length
        (filter resolvable (("", JDict [("name", JStr "app")]) :: zero_items)) /\
    forall w,
      main (JDict (flat_fields zero_items)) w =
      mkOutcome 0 (Some recs) [Processing; Generated (List.length recs)].
Proof.
  apply (@offline_lockfile_is_reproducible Fixture.env).
  - reflexivity.
  - vm_compute. reflexivity.
Defined.

Lemma flat_run_survives_the_network_witness :
  exit_code (main (JDict (flat_fields fetch_items)) (O : @World Fixture.env)) = 0 /\
  exists srcs,
    output_file (main (JDict (flat_fields fetch_items)) (O : @World Fixture.env)) =
      Some srcs.
Proof.
  apply (@flat_run_survives_the_network Fixture.env (flat_fields fetch_items)
           (("", JDict [("name", JStr "app")]) :: fetch_items)).
  - intros url e. reflexivity.
  - reflexivity.
  - vm_compute. reflexivity.
Defined.

Lemma packages_key_takes_precedence_witness :
  process_package_lock (JDict (flat_fields zero_items)) start =
  process_package_lock
    (JDict [("dependencies", nested_b);
            ("packages",
             JDict (("", JDict [("name", JStr "app")]) :: zero_items))])
    start.
Proof.
  apply (@packages_key_takes_precedence Fixture.env) with
    (JDict (("", JDict [("name", JStr "app")]) :: zero_items));
    reflexivity.
Defined.

Lemma non_mapping_document_yields_nothing_witness :
  process_package_lock (JList [JStr "packages"]) start =
    (Ok [], mkState (world start) (stdout start) []) \/
  process_package_lock (JList [JStr "packages"]) start =
    (Raise TypeError, mkState (world start) (stdout start) []).
Proof.
  apply (@non_mapping_document_yields_nothing Fixture.env).
  intros d H. discriminate H.
Defined.

Lemma document_without_either_key_gives_empty_output_witness :
  main (JDict [("name", JStr "app")]) (O : @World Fixture.env) =
  mkOutcome 0 (Some []) [Processing; Generated 0].
Proof.
  apply (@document_without_either_key_gives_empty_output Fixture.env);
    reflexivity.
Defined.

Lemma tree_traversal_survives_the_network_witness :
  exists s1, process_deps mixed_tree "" start = (Ok tt, s1).
Proof.
  apply (@tree_traversal_survives_the_network Fixture.env).
  - intros url e. reflexivity.
  - vm_compute. reflexivity.
Defined.

Lemma plain_integrity_is_decoded_as_it_stands_witness :
  prepare_b64 ("sha512-" ++ zero_b64 ++ str_repeat "=" 2) =
    zero_b64 ++ str_repeat "=" 2 /\
  package_body "node_modules/foo" (entry foo_url integrity_zero) start =
  (Ok tt,
   mkState (world start) (stdout start)
     (sources start ++ [source_record (JStr foo_url) (hex zero_digest) "foo"])).
Proof.
  apply (@plain_integrity_is_decoded_as_it_stands Fixture.env
           "node_modules/foo"
           [("resolved", JStr foo_url); ("integrity", JStr integrity_zero)]
           (JStr foo_url) zero_b64 2%nat zero_digest "foo" start).
  - discriminate.
  - reflexivity.
  - reflexivity.
  - reflexivity.
  - vm_compute. reflexivity.
  - vm_compute. reflexivity.
  - lia.
  - vm_compute. reflexivity.
  - vm_compute. reflexivity.
  - reflexivity.
Defined.

Lemma prefixed_keys_get_distinct_filenames_witness :
  "node_modules/@scope/foo" = "node_modules/@scope/foo".
Proof.
  apply (@prefixed_keys_get_distinct_filenames Fixture.env
           "node_modules/@scope/foo" "node_modules/@scope/foo"
           (JStr foo_url) (JStr "https://x/other.tgz") "@scope/foo");
    reflexivity.
Defined.

Lemma offline_tree_is_reproducible_witness :
  exists recs,
    forall w,
      main (JDict (tree_fields (("a", JDict parent_a) :: siblings))) w =
      mkOutcome 0 (Some recs) [Processing; Generated (List.length recs)].
Proof.
  apply (@offline_tree_is_reproducible Fixture.env
           (tree_fields (("a", JDict parent_a) :: siblings))
           (JDict (("a", JDict parent_a) :: siblings))).
  - reflexivity.
  - reflexivity.
  - vm_compute. reflexivity.
Defined.

Lemma non_mapping_section_aborts_the_run_witness :
  main (JDict [("packages", JList [])]) (O : @World Fixture.env) =
  mkOutcome 1 None [Processing].
Proof.
  apply (@non_mapping_section_aborts_the_run Fixture.env
           [("packages", JList [])] (JList [])).
  - intros items H. discriminate H.
  - left. reflexivity.
Defined.
